(** * NCMParser: the NetEase Cloud Music link parser (core/parsers/ncm.py)

    A shallow embedding of the three handlers that build a parsed result
    ([_parse_song], [_parse_direct_mp3], [_parse_private_outer]) and the
    properties the specification states about them.

    [_parse_short] only forwards to [BaseParser.parse_with_redirect], which
    is not among the sources, and is not modelled.

    - JSON bodies are Python values ([json]); every dynamic operation the
      handlers apply to them ([.get], [[0]], truthiness, [+], [//], [==],
      [str.join], f-string formatting) is a function that returns the value
      or the exception CPython raises.
    - An outbound GET is a node of a program tree ([prog]); [run] plays a
      tree against a server and returns the requests issued, in order,
      with the handler's outcome.
    - Python [str] is a [string] holding the UTF-8 encoding of the text. *)

From Stdlib Require Import ZArith String Ascii List Bool Lia DecimalString.
Import ListNotations.

Set Warnings "-register-all".

Local Open Scope string_scope.
Local Open Scope Z_scope.

(** ** Exceptions *)

(** The exceptions a handler can end with.  [ClientError] (aiohttp) and
    [ParseException] (..exception) are raised by the handlers themselves and
    carry their message; the others are raised by the interpreter when a
    JSON body does not have the shape the code expects, or by [resp.json]. *)
Inductive exn : Type :=
| ClientError (msg : string)
| ParseException (msg : string)
| AttributeError
| TypeError
| KeyError
| IndexError
| ZeroDivisionError
| JSONDecodeError
| TransportError (what : string).

(** The outcome of evaluating an expression or of a whole call. *)
Inductive outcome (A : Type) : Type :=
| Returns (a : A)
| Raises (e : exn).
Arguments Returns {A} a.
Arguments Raises {A} e.

Definition obind {A B : Type} (o : outcome A) (f : A -> outcome B) : outcome B :=
  match o with
  | Returns a => f a
  | Raises e => Raises e
  end.

(** [mapM] in [outcome]: left to right, stops at the first exception. *)
Fixpoint omap {A B : Type} (f : A -> outcome B) (l : list A) : outcome (list B) :=
  match l with
  | [] => Returns []
  | a :: l' => obind (f a) (fun b => obind (omap f l') (fun bs => Returns (b :: bs)))
  end.

(** ** Strings *)

(** [str(n)] for an [int]. *)
Definition str_of_int (n : Z) : string := NilZero.string_of_int (Z.to_int n).

(** Bytes [10xxxxxx] continue a UTF-8 sequence. *)
Definition is_continuation (c : ascii) : bool :=
  ((128 <=? nat_of_ascii c) && (nat_of_ascii c <? 192))%nat.

Fixpoint take_continuation (s : string) : string :=
  match s with
  | String c s' => if is_continuation c then String c (take_continuation s') else ""
  | EmptyString => ""
  end.

(** [s[0]] for a non-empty [str]: its first code point. *)
Definition str_first (s : string) : string :=
  match s with
  | String c s' => String c (take_continuation s')
  | EmptyString => ""
  end.

(** [list(s)]: the code points of a [str], each as a [str]. *)
Fixpoint str_chars (s : string) : list string :=
  match s with
  | EmptyString => []
  | String c s' =>
      match s' with
      | String c' _ =>
          if is_continuation c' then String c (take_continuation s') :: tl (str_chars s')
          else String c "" :: str_chars s'
      | EmptyString => [String c ""]
      end
  end.

(** [sep.join(l)] on a list of [str]. *)
Fixpoint join (sep : string) (l : list string) : string :=
  match l with
  | [] => ""
  | [s] => s
  | s :: l' => s ++ sep ++ join sep l'
  end.

(** ** CPython primitives taken as given

    Two parts of CPython are not reproduced here: IEEE doubles (a JSON number
    with a fraction or an exponent is parsed to a [float]) and [repr] of a
    [str] (quoting and escaping follow the Unicode tables).  Every definition
    and theorem below holds for any implementation of them. *)
Class PyPrims : Type := {
  pyfloat : Type;
  (** [x == 0.0], the negation of [bool(x)] *)
  float_is_zero : pyfloat -> bool;
  (** [x == n] for an [int] n *)
  float_eq_int : pyfloat -> Z -> bool;
  (** [x // n] for a non-zero [int] n *)
  float_floordiv_int : pyfloat -> Z -> pyfloat;
  (** [repr(x)], which is also [str(x)] *)
  float_repr : pyfloat -> string;
  (** [repr(s)] for a [str] *)
  str_repr : string -> string
}.

Section NCM.

Context `{PyPrims}.

(** ** Python values decoded from JSON *)

(** What [resp.json()] returns.  [JDict] lists the items of a [dict] in
    insertion order; the keys of a [dict] are pairwise distinct, and lookup
    takes the first binding of a key. *)
Inductive json : Type :=
| JNull
| JBool (b : bool)
| JInt (n : Z)
| JFloat (x : pyfloat)
| JStr (s : string)
| JList (l : list json)
| JDict (d : list (string * json)).

Fixpoint dict_lookup (key : string) (d : list (string * json)) : option json :=
  match d with
  | [] => None
  | (k, v) :: d' => if String.eqb k key then Some v else dict_lookup key d'
  end.

(** [d.get(key, default)] on a [dict]. *)
Definition dict_get (d : list (string * json)) (key : string) (default : json) : json :=
  match dict_lookup key d with
  | Some v => v
  | None => default
  end.

(** [bool(v)]: [None], [False], zero, and the empty [str], [list] and [dict]
    are false. *)
Definition py_bool (v : json) : bool :=
  match v with
  | JNull => false
  | JBool b => b
  | JInt n => negb (n =? 0)
  | JFloat x => negb (float_is_zero x)
  | JStr s => negb (String.eqb s "")
  | JList l => match l with [] => false | _ => true end
  | JDict d => match d with [] => false | _ => true end
  end.

(** [o.get(key, default)]: only a [dict] has the method. *)
Definition py_get (o : json) (key : string) (default : json) : outcome json :=
  match o with
  | JDict d => Returns (dict_get d key default)
  | _ => Raises AttributeError
  end.

(** [o[0]]: the first element of a [list], the first code point of a [str];
    a [dict] decoded from JSON has only [str] keys, so the key [0] is absent. *)
Definition py_item0 (o : json) : outcome json :=
  match o with
  | JList (x :: _) => Returns x
  | JList [] => Raises IndexError
  | JStr EmptyString => Raises IndexError
  | JStr s => Returns (JStr (str_first s))
  | JDict _ => Raises KeyError
  | JNull | JBool _ | JInt _ | JFloat _ => Raises TypeError
  end.

(** [iter(o)] run to the end: the elements of a [list], the code points of a
    [str], the keys of a [dict]. *)
Definition py_iter (o : json) : outcome (list json) :=
  match o with
  | JList l => Returns l
  | JStr s => Returns (map JStr (str_chars s))
  | JDict d => Returns (map (fun kv => JStr (fst kv)) d)
  | JNull | JBool _ | JInt _ | JFloat _ => Raises TypeError
  end.

(** [v + s] for a [str] s. *)
Definition py_add_str (v : json) (s : string) : outcome json :=
  match v with
  | JStr a => Returns (JStr (a ++ s))
  | _ => Raises TypeError
  end.

(** [s + v] for a [str] s. *)
Definition py_str_add (s : string) (v : json) : outcome string :=
  match v with
  | JStr a => Returns (s ++ a)
  | _ => Raises TypeError
  end.

(** [v // n] for an [int] n: floor division; [bool] is a subtype of [int]. *)
Definition py_floordiv_int (v : json) (n : Z) : outcome json :=
  match v with
  | JInt a => if n =? 0 then Raises ZeroDivisionError else Returns (JInt (a / n))
  | JBool b => if n =? 0 then Raises ZeroDivisionError else Returns (JInt (Z.b2z b / n))
  | JFloat x => if n =? 0 then Raises ZeroDivisionError else Returns (JFloat (float_floordiv_int x n))
  | JNull | JStr _ | JList _ | JDict _ => Raises TypeError
  end.

(** [v == n] for an [int] n. *)
Definition py_eq_int (v : json) (n : Z) : bool :=
  match v with
  | JInt a => a =? n
  | JBool b => Z.b2z b =? n
  | JFloat x => float_eq_int x n
  | JNull | JStr _ | JList _ | JDict _ => false
  end.

(** [repr(v)]. *)
Fixpoint py_repr (v : json) : string :=
  match v with
  | JNull => "None"
  | JBool true => "True"
  | JBool false => "False"
  | JInt n => str_of_int n
  | JFloat x => float_repr x
  | JStr s => str_repr s
  | JList l => "[" ++ join ", " (map py_repr l) ++ "]"
  | JDict d =>
      "{" ++ join ", " (map (fun kv => str_repr (fst kv) ++ ": " ++ py_repr (snd kv)) d) ++ "}"
  end.

(** [str(v)], which is what [f"{v}"] formats: a [str] is itself, every other
    value is its [repr]. *)
Definition py_str (v : json) : string :=
  match v with
  | JStr s => s
  | _ => py_repr v
  end.

(** [sep.join(items)]: every item must be a [str]. *)
Definition str_join (sep : string) (items : list json) : outcome string :=
  obind (omap (fun v => match v with JStr s => Returns s | _ => Raises TypeError end) items)
        (fun l => Returns (join sep l)).

(** ** Outbound requests *)

(** [session.get(url, headers=...)]: the URL and the headers sent. *)
Record request : Type := { req_url : string; req_headers : list (string * string) }.

(** The part of an aiohttp response the handlers read: [resp.status] and the
    body as [resp.json(content_type=None)] decodes it ([None] here when the
    body is not JSON; an empty body decodes to [JNull]). *)
Record response : Type := { status : Z; json_body : option json }.

(** What comes back for a request: a response, whose body can be read, or an
    exception raised by the HTTP client itself (a [ClientError] such as a
    refused connection, a timeout, ...). *)
Inductive reply : Type :=
| Resp (r : response)
| Fail (e : exn).

(** A handler body: it returns, raises, or issues a GET and continues with
    the response. *)
Inductive prog (A : Type) : Type :=
| Ret (a : A)
| Raise (e : exn)
| Get (rq : request) (k : response -> prog A).
Arguments Ret {A} a.
Arguments Raise {A} e.
Arguments Get {A} rq k.

Fixpoint bind {A B : Type} (p : prog A) (f : A -> prog B) : prog B :=
  match p with
  | Ret a => f a
  | Raise e => Raise e
  | Get rq k => Get rq (fun r => bind (k r) f)
  end.

(** An expression evaluated inside a handler. *)
Definition lift {A : Type} (o : outcome A) : prog A :=
  match o with
  | Returns a => Ret a
  | Raises e => Raise e
  end.
Coercion lift : outcome >-> prog.

Declare Scope prog_scope.
Delimit Scope prog_scope with prog.
Declare Scope outcome_scope.
Delimit Scope outcome_scope with out.
Notation "x <- p ;; q" := (bind p (fun x => q))
  (at level 61, p at next level, right associativity) : prog_scope.
Notation "x <- p ;; q" := (obind p (fun x => q))
  (at level 61, p at next level, right associativity) : outcome_scope.

(** [run server p]: the requests [p] issues against [server], in order, and
    how [p] ends.  The handlers catch nothing, so an exception of the client
    ends the call. *)
Fixpoint run {A : Type} (server : request -> reply) (p : prog A)
  : list request * outcome A :=
  match p with
  | Ret a => ([], Returns a)
  | Raise e => ([], Raises e)
  | Get rq k =>
      match server rq with
      | Fail e => ([rq], Raises e)
      | Resp r => let (trace, o) := run server (k r) in (rq :: trace, o)
      end
  end.

Definition session_get (url : string) (headers : list (string * string)) : prog response :=
  Get {| req_url := url; req_headers := headers |} (fun resp => Ret resp).

(** [await resp.json(content_type=None)]. *)
Definition resp_json (resp : response) : outcome json :=
  match json_body resp with
  | Some j => Returns j
  | None => Raises JSONDecodeError
  end.

(** ** The parsed result *)

(** Modelled from the spec: the result types of [..data] are not among the
    sources.  Section 3 of the specification: a parsed result is a "title
    string, optional descriptive text, optional author (name + avatar),
    ordered list of content items (image items before the audio item),
    optional timestamp, canonical source URL".  An author is the name and
    avatar given to [create_author]. *)
Record Author : Type := { author_name : string; author_avatar : json }.

(** Modelled from the spec: a content item is "either an image or an audio
    stream reference" (glossary); it holds what [create_image_contents] and
    [create_audio_content] were given ([duration] is [None] when the keyword
    is not passed). *)
Inductive Content : Type :=
| ImageContent (url : json)
| AudioContent (url : json) (duration : option json).

(** Modelled from the spec: the parsed result, as the keyword arguments
    given to [self.result]. *)
Record ParseResult : Type := {
  r_title : string;
  r_text : option string;
  r_author : option Author;
  r_contents : list Content;
  r_timestamp : option Z;
  r_url : string
}.

(** The four factories below belong to [BaseParser] (core/parsers/base.py),
    which is not among the sources.  Section 6 of the specification: "all
    provided by the base class; this module only supplies arguments".  Each
    is modelled as the constructor that records the arguments it was given. *)

(** Modelled from the spec: [self.create_author(name, avatar)] of the base
    class, the author made of the two arguments. *)
Definition create_author (name : string) (avatar : json) : Author :=
  {| author_name := name; author_avatar := avatar |}.

(** Modelled from the spec: [self.create_audio_content(url, duration=...)] of
    the base class, the audio item made of the arguments. *)
Definition create_audio_content (url : json) (duration : option json) : Content :=
  AudioContent url duration.

(** Modelled from the spec: [self.create_image_contents(urls)] of the base
    class, one image item per URL, in order. *)
Definition create_image_contents (urls : list json) : list Content :=
  map ImageContent urls.

(** Modelled from the spec: [self.result(...)] of the base class, the parsed
    result made of the keyword arguments; [author] and [timestamp] are
    [None] when the handler does not pass them. *)
Definition result (title : string) (text : option string) (author : option Author)
  (contents : list Content) (timestamp : option Z) (url : string) : ParseResult :=
  {| r_title := title; r_text := text; r_author := author;
     r_contents := contents; r_timestamp := timestamp; r_url := url |}.

(** ** The handlers *)

(** The parser object: [self.headers] as [__init__] leaves them (the
    Referer, and the cookie string when the cookie jar has one). *)
Record NCMParser : Type := { headers : list (string * string) }.

Definition detail_url (song_id : string) : string :=
  "https://music.163.com/api/song/detail/?id=" ++ song_id ++ "&ids=[" ++ song_id ++ "]".

Definition play_url (song_id : string) : string :=
  "https://music.163.com/api/song/enhance/player/url?ids=[" ++ song_id ++ "]&br=320000".

Definition msg_detail_http (st : Z) : string := "[NCM] 获取歌曲信息失败 HTTP " ++ str_of_int st.
Definition msg_play_http (st : Z) : string := "[NCM] 获取播放地址失败 HTTP " ++ str_of_int st.
Definition msg_not_found : string := "[NCM] 未找到该歌曲".
Definition msg_no_play_data : string := "[NCM] 获取播放数据失败".
Definition msg_restricted : string := "[NCM] 该歌曲需要VIP或存在版权限制，无法获取播放地址".
Definition msg_unavailable (code : json) : string :=
  "[NCM] 无法获取播放地址 (code=" ++ py_str code ++ ")".

Local Open Scope prog_scope.

(** [_parse_song] (ncm.py, lines 43-118); [song_id] is
    [searched.group("song_id")], a group of each of the three patterns bound
    to the handler.  The two [logger.debug] calls are left out. *)
Definition _parse_song (self : NCMParser) (song_id : string) : prog ParseResult :=
  (* 1. song metadata *)
  resp <- session_get (detail_url song_id) (headers self) ;;
  _ <- (if 400 <=? status resp
        then Raise (ClientError (msg_detail_http (status resp)))
        else Ret tt) ;;
  detail_json <- resp_json resp ;;
  songs <- py_get detail_json "songs" (JList []) ;;
  if negb (py_bool songs) then Raise (ParseException msg_not_found) else
  song <- py_item0 songs ;;
  title <- py_get song "name" (JStr "") ;;
  alias <- py_get song "alias" JNull ;;
  sub_title <- (if py_bool alias
                then (a <- py_get song "alias" (JList [JStr ""]) ;; py_item0 a)%out
                else Returns (JStr "")) ;;
  album <- py_get song "album" (JDict []) ;;
  album_name <- py_get album "name" (JStr "") ;;
  album' <- py_get song "album" (JDict []) ;;
  cover_url <- py_get album' "picUrl" (JStr "") ;;
  cover_url <- (if py_bool cover_url
                then py_add_str cover_url "?param=640y640"
                else Returns cover_url) ;;
  duration_ms <- py_get song "duration" (JInt 0) ;;
  (* author *)
  ar_list <- py_get song "artists" (JList []) ;;
  ars <- py_iter ar_list ;;
  names <- omap (fun ar => py_get ar "name" (JStr "")) ars ;;
  author_name <- str_join " / " names ;;
  author_avatar <- (if py_bool ar_list
                    then (ar0 <- py_item0 ar_list ;; py_get ar0 "img1v1Url" (JStr ""))%out
                    else Returns (JStr "")) ;;
  (* 2. playback address *)
  resp <- session_get (play_url song_id) (headers self) ;;
  _ <- (if 400 <=? status resp
        then Raise (ClientError (msg_play_http (status resp)))
        else Ret tt) ;;
  play_json <- resp_json resp ;;
  play_data <- py_get play_json "data" (JList []) ;;
  if negb (py_bool play_data) then Raise (ParseException msg_no_play_data) else
  play_info <- py_item0 play_data ;;
  audio_url <- py_get play_info "url" JNull ;;
  _ <- (if negb (py_bool audio_url)
        then (code <- py_get play_info "code" (JInt (-1)) ;;
              if py_eq_int code 404
              then Raise (ParseException msg_restricted)
              else Raise (ParseException (msg_unavailable code)))
        else Ret tt) ;;
  (* 3. assemble *)
  let author :=
    if negb (String.eqb author_name "")
    then Some (create_author author_name author_avatar) else None in
  seconds <- py_floordiv_int duration_ms 1000 ;;
  let audio := create_audio_content audio_url (Some seconds) in
  let contents :=
    ((if py_bool cover_url then create_image_contents [cover_url] else []) ++ [audio])%list in
  (* 4. return *)
  suffix <- (if py_bool sub_title
             then (s <- py_str_add "（" sub_title ;; Returns (s ++ "）"))%out
             else Returns "") ;;
  Ret (result (py_str title ++ suffix)
              (if py_bool album_name then Some ("专辑：" ++ py_str album_name) else None)
              author
              contents
              None
              ("https://music.163.com/#/song?id=" ++ song_id)).

(** [_parse_direct_mp3] (lines 120-130); [url] is [searched.group(0)], the
    text the pattern matched. *)
Definition _parse_direct_mp3 (self : NCMParser) (url : string) : prog ParseResult :=
  let audio := create_audio_content (JStr url) None in
  Ret (result "网易云音乐" (Some "直链音频") None [audio] None url).

(** [_parse_private_outer] (lines 132-146); [private_url] is
    [searched.group(0)].  The [logger.debug] call is left out. *)
Definition _parse_private_outer (self : NCMParser) (private_url : string)
  : prog ParseResult :=
  let audio := create_audio_content (JStr private_url) None in
  Ret (result "网易云音乐（私人直链）" (Some "直链音频") None [audio] None private_url).

(** ** The two halves of [_parse_song]

    Between the two GETs the handler only computes.  [detail_phase] is what
    it does with the song-detail response (lines 53-74) and [play_phase]
    what it does with the playback response (lines 78-118); lemma
    [run_parse_song] below shows that running the handler is running the
    two, one after each request. *)

(** The local variables alive after line 74. *)
Record metadata : Type := {
  m_title : json;
  m_sub_title : json;
  m_album_name : json;
  m_cover_url : json;
  m_duration_ms : json;
  m_author_name : string;
  m_author_avatar : json
}.

Local Open Scope outcome_scope.

Definition song_metadata (song : json) : outcome metadata :=
  title <- py_get song "name" (JStr "") ;;
  alias <- py_get song "alias" JNull ;;
  sub_title <- (if py_bool alias
                then (a <- py_get song "alias" (JList [JStr ""]) ;; py_item0 a)
                else Returns (JStr "")) ;;
  album <- py_get song "album" (JDict []) ;;
  album_name <- py_get album "name" (JStr "") ;;
  album' <- py_get song "album" (JDict []) ;;
  cover_url <- py_get album' "picUrl" (JStr "") ;;
  cover_url <- (if py_bool cover_url
                then py_add_str cover_url "?param=640y640"
                else Returns cover_url) ;;
  duration_ms <- py_get song "duration" (JInt 0) ;;
  ar_list <- py_get song "artists" (JList []) ;;
  ars <- py_iter ar_list ;;
  names <- omap (fun ar => py_get ar "name" (JStr "")) ars ;;
  author_name <- str_join " / " names ;;
  author_avatar <- (if py_bool ar_list
                    then (ar0 <- py_item0 ar_list ;; py_get ar0 "img1v1Url" (JStr ""))
                    else Returns (JStr "")) ;;
  Returns {| m_title := title; m_sub_title := sub_title; m_album_name := album_name;
             m_cover_url := cover_url; m_duration_ms := duration_ms;
             m_author_name := author_name; m_author_avatar := author_avatar |}.

Definition detail_phase (resp : response) : outcome metadata :=
  _ <- (if 400 <=? status resp
        then Raises (ClientError (msg_detail_http (status resp)))
        else Returns tt) ;;
  detail_json <- resp_json resp ;;
  songs <- py_get detail_json "songs" (JList []) ;;
  if negb (py_bool songs) then Raises (ParseException msg_not_found) else
  song <- py_item0 songs ;;
  song_metadata song.

(** Lines 91-96: the check of the playback address. *)
Definition check_audio_url (play_info audio_url : json) : outcome unit :=
  if negb (py_bool audio_url)
  then (code <- py_get play_info "code" (JInt (-1)) ;;
        if py_eq_int code 404
        then Raises (ParseException msg_restricted)
        else Raises (ParseException (msg_unavailable code)))
  else Returns tt.

(** Lines 99-118: the result, from the metadata and the playback address. *)
Definition assemble (song_id : string) (m : metadata) (audio_url : json)
  : outcome ParseResult :=
  let author :=
    if negb (String.eqb (m_author_name m) "")
    then Some (create_author (m_author_name m) (m_author_avatar m)) else None in
  seconds <- py_floordiv_int (m_duration_ms m) 1000 ;;
  let audio := create_audio_content audio_url (Some seconds) in
  let contents :=
    ((if py_bool (m_cover_url m) then create_image_contents [m_cover_url m] else [])
       ++ [audio])%list in
  suffix <- (if py_bool (m_sub_title m)
             then (s <- py_str_add "（" (m_sub_title m) ;; Returns (s ++ "）"))
             else Returns "") ;;
  Returns (result (py_str (m_title m) ++ suffix)
                  (if py_bool (m_album_name m)
                   then Some ("专辑：" ++ py_str (m_album_name m)) else None)
                  author
                  contents
                  None
                  ("https://music.163.com/#/song?id=" ++ song_id)).

Definition play_phase (song_id : string) (m : metadata) (resp : response)
  : outcome ParseResult :=
  _ <- (if 400 <=? status resp
        then Raises (ClientError (msg_play_http (status resp)))
        else Returns tt) ;;
  play_json <- resp_json resp ;;
  play_data <- py_get play_json "data" (JList []) ;;
  if negb (py_bool play_data) then Raises (ParseException msg_no_play_data) else
  play_info <- py_item0 play_data ;;
  audio_url <- py_get play_info "url" JNull ;;
  _ <- check_audio_url play_info audio_url ;;
  assemble song_id m audio_url.

Local Close Scope outcome_scope.

(** The two requests of [_parse_song]. *)
Definition detail_request (self : NCMParser) (song_id : string) : request :=
  {| req_url := detail_url song_id; req_headers := headers self |}.

Definition play_request (self : NCMParser) (song_id : string) : request :=
  {| req_url := play_url song_id; req_headers := headers self |}.

(** ** Predicates of the statements *)

(** The exceptions of the interpreter and of [resp.json], as opposed to the
    ones the handler raises itself and the ones of the HTTP client. *)
Definition runtime_error (e : exn) : Prop :=
  match e with
  | ClientError _ | ParseException _ | TransportError _ => False
  | _ => True
  end.

(** The artists' names, as line 73 reads them. *)
Definition artist_named (ar : json) (name : string) : Prop :=
  exists ad, ar = JDict ad /\ dict_get ad "name" (JStr "") = JStr name.

(** ** A song with optional fields

    The shape section 6 of the specification gives to a song object, with
    every key optional: [name] a string; [alias] a list whose first element,
    if any, is a string; [album] an object whose [name] and [picUrl] are
    strings; [duration] an integer; [artists] a list of objects whose [name]
    is a string.  [alias], the album's [name] and the album's [picUrl] may
    also be [null].  An [album] or an [artists] that is [null] is not of
    this shape. *)
Definition is_opt_str (o : option json) : bool :=
  match o with
  | None | Some (JStr _) => true
  | _ => false
  end.

Definition is_opt_str_or_null (o : option json) : bool :=
  match o with
  | None | Some JNull | Some (JStr _) => true
  | _ => false
  end.

(** The key is absent, or present with the value [null]. *)
Definition absent_or_null (o : option json) : Prop := o = None \/ o = Some JNull.

Definition artist_ok (ar : json) : bool :=
  match ar with
  | JDict ad => is_opt_str (dict_lookup "name" ad)
  | _ => false
  end.

(** The shape of every field but [duration]. *)
Definition song_fields_ok (sd : list (string * json)) : bool :=
  is_opt_str (dict_lookup "name" sd)
  && match dict_lookup "alias" sd with
     | None | Some JNull | Some (JList []) | Some (JList (JStr _ :: _)) => true
     | _ => false
     end
  && match dict_lookup "album" sd with
     | None => true
     | Some (JDict ad) =>
         is_opt_str_or_null (dict_lookup "name" ad)
         && is_opt_str_or_null (dict_lookup "picUrl" ad)
     | _ => false
     end
  && match dict_lookup "artists" sd with
     | None => true
     | Some (JList ars) => forallb artist_ok ars
     | _ => false
     end.

Definition song_ok (sd : list (string * json)) : bool :=
  song_fields_ok sd
  && match dict_lookup "duration" sd with
     | None | Some (JInt _) => true
     | _ => false
     end.

(** [song["album"][key]], when the song has an album object with that key. *)
Definition album_field (sd : list (string * json)) (key : string) : option json :=
  match dict_lookup "album" sd with
  | Some (JDict ad) => dict_lookup key ad
  | _ => None
  end.

(** ** The constructor *)

(** [self.headers] is a [dict] of [str]: [h.get(key)] takes the binding of
    the key, and [h[key] = value] gives an existing key its new value in
    place and puts a new key last. *)
Fixpoint headers_get (key : string) (h : list (string * string)) : option string :=
  match h with
  | [] => None
  | (k, v) :: h' => if String.eqb k key then Some v else headers_get key h'
  end.

Fixpoint headers_set (key value : string) (h : list (string * string))
  : list (string * string) :=
  match h with
  | [] => [(key, value)]
  | (k, v) :: h' =>
      if String.eqb k key then (k, value) :: h' else (k, v) :: headers_set key value h'
  end.

(** [__init__] (lines 23-29), as far as [self.headers] goes.  [base_headers]
    is [self.headers] as [super().__init__] leaves it and [cookies_str] is
    [self.cookiejar.cookies_str] ([None], or a [str]); [BaseParser] and
    [CookieJar] are not among the sources.  [self.mycfg] and
    [self.cookiejar] are not read by the handlers and are left out. *)
Definition __init__ (base_headers : list (string * string)) (cookies_str : option string)
  : NCMParser :=
  let hdrs := headers_set "Referer" "https://music.163.com" base_headers in
  let hdrs :=
    match cookies_str with
    | Some s => if negb (String.eqb s "") then headers_set "cookie" s hdrs else hdrs
    | None => hdrs
    end in
  {| headers := hdrs |}.

(** ** Shapes of values *)

(** [isinstance(v, dict)]. *)
Definition is_dict (v : json) : bool :=
  match v with
  | JDict _ => true
  | _ => false
  end.

(** The values [//] accepts on its left: [int], [bool] and [float]. *)
Definition is_number (v : json) : bool :=
  match v with
  | JInt _ | JBool _ | JFloat _ => true
  | _ => false
  end.

End NCM.

Arguments Ret {H A} a.
Arguments Raise {H A} e.
Arguments Get {H A} rq k.

(** ** Concrete bodies

    The primitives for bodies that hold no float, where [repr] of a [str]
    is written for text without quotes, backslashes or control characters;
    and the responses used in the concrete runs of the last section. *)
Definition plain_prims : PyPrims :=
  {| pyfloat := Empty_set;
     float_is_zero := fun _ => false;
     float_eq_int := fun _ _ => false;
     float_floordiv_int := fun x _ => x;
     float_repr := fun _ => "";
     str_repr := fun s => "'" ++ s ++ "'" |}.

Definition value : Type := @json plain_prims.

Definition self0 : NCMParser := {| headers := [("Referer", "https://music.163.com")] |}.

Definition artists_full : list value :=
  [JDict [("name", JStr "A"); ("img1v1Url", JStr "http://example/a.jpg")];
   JDict [("name", JStr "B")]].

Definition song_full : list (string * value) :=
  [("name", JStr "Song");
   ("alias", JList [JStr "Alt"]);
   ("album", JDict [("name", JStr "Album"); ("picUrl", JStr "http://example/cover.jpg")]);
   ("duration", JInt 125499);
   ("artists", JList artists_full)].

Definition song_bare : list (string * value) := [("name", JStr "Song")].

Definition song_empty_alias : list (string * value) :=
  [("name", JStr "Song"); ("alias", JList [JStr ""])].

Definition songs_body (songs : list value) : list (string * value) :=
  [("songs", JList songs)].

Definition data_body (entry : list (string * value)) : list (string * value) :=
  [("data", JList [JDict entry])].

Definition entry_ok : list (string * value) :=
  [("url", JStr "http://example/a.mp3"); ("code", JInt 200)].

Definition entry_denied (code : Z) : list (string * value) :=
  [("url", JNull); ("code", JInt code)].

Definition http (st : Z) (body : list (string * value)) : @response plain_prims :=
  {| status := st; json_body := Some (JDict body) |}.

(** The server that answers the song-detail request of song 42 with
    [detail] and every other request with [play]. *)
Definition two_replies (detail play : @response plain_prims) (rq : request)
  : @reply plain_prims :=
  if String.eqb (req_url rq) (detail_url "42") then Resp detail else Resp play.

Definition server_full : request -> @reply plain_prims :=
  two_replies (http 200 (songs_body [JDict song_full])) (http 200 (data_body entry_ok)).

Definition server_bare : request -> @reply plain_prims :=
  two_replies (http 200 (songs_body [JDict song_bare])) (http 200 (data_body entry_ok)).

Definition server_denied (code : Z) : request -> @reply plain_prims :=
  two_replies (http 200 (songs_body [JDict song_full]))
              (http 200 (data_body (entry_denied code))).

(** What the handler returns for [song_full] and for [song_bare]. *)
Definition result_full : @ParseResult plain_prims :=
  {| r_title := "Song（Alt）";
     r_text := Some "专辑：Album";
     r_author := Some {| author_name := "A / B";
                         author_avatar := JStr "http://example/a.jpg" |};
     r_contents := [ImageContent (JStr "http://example/cover.jpg?param=640y640");
                    AudioContent (JStr "http://example/a.mp3") (Some (JInt 125))];
     r_timestamp := None;
     r_url := "https://music.163.com/#/song?id=42" |}.

Definition result_bare : @ParseResult plain_prims :=
  {| r_title := "Song";
     r_text := None;
     r_author := None;
     r_contents := [AudioContent (JStr "http://example/a.mp3") (Some (JInt 0))];
     r_timestamp := None;
     r_url := "https://music.163.com/#/song?id=42" |}.

Definition song_null_duration : list (string * value) :=
  [("name", JStr "Song"); ("duration", JNull)].

Definition song_null_album : list (string * value) :=
  [("name", JStr "Song"); ("album", JNull)].

Definition server_null_songs : request -> @reply plain_prims :=
  two_replies (http 200 [("songs", JNull)]) (http 200 (data_body entry_ok)).

Definition server_no_data : request -> @reply plain_prims :=
  two_replies (http 200 (songs_body [JDict song_full])) (http 200 [("data", JList [])]).

Definition server_null_duration : request -> @reply plain_prims :=
  two_replies (http 200 (songs_body [JDict song_null_duration]))
              (http 200 (data_body entry_ok)).

Definition server_null_album : request -> @reply plain_prims :=
  two_replies (http 200 (songs_body [JDict song_null_album]))
              (http 200 (data_body entry_ok)).

Definition song_null_artists : list (string * value) :=
  [("name", JStr "Song"); ("artists", JNull)].

Definition server_null_artists : request -> @reply plain_prims :=
  two_replies (http 200 (songs_body [JDict song_null_artists]))
              (http 200 (data_body entry_ok)).

(** A song whose optional fields are [null] where the code allows it. *)
Definition song_nulls : list (string * value) :=
  [("name", JStr "Song"); ("alias", JNull);
   ("album", JDict [("name", JNull); ("picUrl", JNull)])].

Definition server_nulls : request -> @reply plain_prims :=
  two_replies (http 200 (songs_body [JDict song_nulls]))
              (http 200 (data_body entry_ok)).

Definition song_str_duration : list (string * value) :=
  [("name", JStr "Song"); ("duration", JStr "215000")].

Definition server_str_duration : request -> @reply plain_prims :=
  two_replies (http 200 (songs_body [JDict song_str_duration]))
              (http 200 (data_body entry_ok)).

(** Two artists, neither with a name. *)
Definition artists_nameless : list value := [JDict []; JDict []].

Definition server_nameless : request -> @reply plain_prims :=
  two_replies (http 200 (songs_body [JDict [("artists", JList artists_nameless)]]))
              (http 200 (data_body entry_ok)).

(** Headers as a base class could leave them, and a cookie string. *)
Definition base_headers0 : list (string * string) :=
  [("User-Agent", "Mozilla/5.0"); ("Referer", "https://example.org")].

Definition cookies0 : option string := Some "MUSIC_U=abc".

(** * Properties *)

Section Properties.

Context `{PyPrims}.

#[local] Arguments detail_url : simpl never.
#[local] Arguments play_url : simpl never.
#[local] Arguments msg_detail_http : simpl never.
#[local] Arguments msg_play_http : simpl never.
#[local] Arguments msg_unavailable : simpl never.
#[local] Arguments py_str : simpl never.
#[local] Arguments String.append : simpl never.

Create HintDb py_raises.

(** Case analysis on the expression a program is waiting for. *)
Ltac head_case p :=
  lazymatch p with
  | bind ?q _ => head_case q
  | lift ?o => destruct o; simpl
  | if ?b then _ else _ => destruct b; simpl
  end.
Ltac run_step := match goal with |- context [run _ ?p] => head_case p end.

Ltac ohead o := lazymatch o with obind ?q _ => ohead q | _ => o end.

(** Case analysis on the expression an equation [obind _ _ = _] waits for;
    the cases that contradict the equation are closed. *)
Ltac out_step H :=
  lazymatch type of H with
  | obind ?o _ = _ =>
      let h := ohead o in destruct h eqn:?; simpl in H; try discriminate H
  end.

(** Case analysis on the expression an equation [_ = Raises e] waits for: a
    conditional by its test, an operation by its outcome; an operation that
    raises ends the goal. *)
Ltac raise_step H :=
  lazymatch type of H with
  | (if ?b then _ else _) = Raises _ => destruct b eqn:?; simpl in H
  | obind ?o _ = Raises _ =>
      let h := ohead o in
      lazymatch h with
      | if ?b then _ else _ => destruct b eqn:?; simpl in H
      | _ =>
          let E := fresh "E" in
          destruct h eqn:E; simpl in H;
          [| injection H as <-; solve [eauto with py_raises]]
      end
  end.

(** ** Running the handler *)

(** The handler is its two halves, one after each request. *)
Lemma run_parse_song server self song_id :
  run server (_parse_song self song_id) =
  match server (detail_request self song_id) with
  | Fail e => ([detail_request self song_id], Raises e)
  | Resp r1 =>
      match detail_phase r1 with
      | Raises e => ([detail_request self song_id], Raises e)
      | Returns m =>
          match server (play_request self song_id) with
          | Fail e =>
              ([detail_request self song_id; play_request self song_id], Raises e)
          | Resp r2 =>
              ([detail_request self song_id; play_request self song_id],
               play_phase song_id m r2)
          end
      end
  end.
Proof.
  unfold _parse_song, detail_phase, song_metadata, play_phase, check_audio_url,
    assemble, detail_request, play_request.
  simpl.
  destruct (server _) as [r1|e]; [|reflexivity].
  simpl. repeat run_step; try reflexivity;
  (destruct (server _) as [r2|e]; [|reflexivity]); simpl;
  repeat run_step; reflexivity.
Qed.

Lemma detail_url_not_play_url song_id : detail_url song_id <> play_url song_id.
Proof. unfold detail_url, play_url. simpl. discriminate. Qed.

Lemma detail_request_not_play_request self song_id :
  detail_request self song_id <> play_request self song_id.
Proof.
  unfold detail_request, play_request. intros E.
  apply (detail_url_not_play_url song_id). congruence.
Qed.

(** The playback request is issued exactly when the first half returns. *)
Lemma play_request_issued server self song_id :
  In (play_request self song_id) (fst (run server (_parse_song self song_id))) ->
  exists r1 m,
    server (detail_request self song_id) = Resp r1 /\ detail_phase r1 = Returns m /\
    run server (_parse_song self song_id) =
    match server (play_request self song_id) with
    | Fail e => ([detail_request self song_id; play_request self song_id], Raises e)
    | Resp r2 =>
        ([detail_request self song_id; play_request self song_id],
         play_phase song_id m r2)
    end.
Proof.
  rewrite run_parse_song.
  destruct (server (detail_request self song_id)) as [r1|e] eqn:E1.
  - destruct (detail_phase r1) as [m|e] eqn:E2.
    + intros _. exists r1, m. auto.
    + simpl. intros [E|[]]. now apply detail_request_not_play_request in E.
  - simpl. intros [E|[]]. now apply detail_request_not_play_request in E.
Qed.

(** A call that returns went through both halves. *)
Lemma run_parse_song_returns server self song_id trace res :
  run server (_parse_song self song_id) = (trace, Returns res) ->
  exists r1 m r2,
    server (detail_request self song_id) = Resp r1 /\ detail_phase r1 = Returns m /\
    server (play_request self song_id) = Resp r2 /\ play_phase song_id m r2 = Returns res /\
    trace = [detail_request self song_id; play_request self song_id].
Proof.
  rewrite run_parse_song.
  destruct (server (detail_request self song_id)) as [r1|e]; [|discriminate].
  destruct (detail_phase r1) as [m|e] eqn:E1; [|discriminate].
  destruct (server (play_request self song_id)) as [r2|e]; [|discriminate].
  intros E. injection E as <- E. exists r1, m, r2. auto.
Qed.

(** ** The first half *)

Lemma song_metadata_returns song m :
  song_metadata song = Returns m ->
  exists sd ad ars names,
    song = JDict sd /\
    m_title m = dict_get sd "name" (JStr "") /\
    (if py_bool (dict_get sd "alias" JNull)
     then py_item0 (dict_get sd "alias" (JList [JStr ""]))
     else Returns (JStr "")) = Returns (m_sub_title m) /\
    dict_get sd "album" (JDict []) = JDict ad /\
    m_album_name m = dict_get ad "name" (JStr "") /\
    (if py_bool (dict_get ad "picUrl" (JStr ""))
     then py_add_str (dict_get ad "picUrl" (JStr "")) "?param=640y640"
     else Returns (dict_get ad "picUrl" (JStr ""))) = Returns (m_cover_url m) /\
    m_duration_ms m = dict_get sd "duration" (JInt 0) /\
    py_iter (dict_get sd "artists" (JList [])) = Returns ars /\
    omap (fun ar => py_get ar "name" (JStr "")) ars = Returns names /\
    str_join " / " names = Returns (m_author_name m) /\
    (if py_bool (dict_get sd "artists" (JList []))
     then obind (py_item0 (dict_get sd "artists" (JList [])))
                (fun ar0 => py_get ar0 "img1v1Url" (JStr ""))
     else Returns (JStr "")) = Returns (m_author_avatar m).
Proof.
  intros E. destruct song as [| | | | | |sd]; try discriminate E.
  unfold song_metadata in E. simpl in E.
  out_step E.
  destruct (dict_get sd "album" (JDict [])) as [| | | | | |ad] eqn:Ealbum;
    try discriminate E.
  simpl in E. do 5 out_step E.
  injection E as <-. simpl. exists sd, ad. eauto 15.
Qed.

Lemma detail_phase_returns r m :
  detail_phase r = Returns m ->
  status r < 400 /\
  exists dd sd rest,
    json_body r = Some (JDict dd) /\
    dict_lookup "songs" dd = Some (JList (JDict sd :: rest)) /\
    song_metadata (JDict sd) = Returns m.
Proof.
  unfold detail_phase, resp_json. intros E.
  destruct (400 <=? status r) eqn:Est; [discriminate E|]. simpl in E.
  split; [lia|].
  destruct (json_body r) as [[| | | | | |dd]|]; try discriminate E.
  simpl in E. unfold dict_get in E.
  destruct (dict_lookup "songs" dd) as [songs|] eqn:Esongs; [|discriminate E].
  destruct songs as [|b|n|x|s|l|d]; simpl in E; try discriminate E.
  - destruct b; discriminate E.
  - destruct (n =? 0); discriminate E.
  - destruct (float_is_zero x); discriminate E.
  - destruct s; simpl in E; [discriminate E|].
    apply song_metadata_returns in E. destruct E as (sd & _ & _ & _ & E & _).
    discriminate E.
  - destruct l as [|song rest]; [discriminate E|]. simpl in E.
    destruct (song_metadata_returns _ _ E) as (sd & _ & _ & _ & -> & _).
    exists dd, sd, rest. auto.
  - destruct d; simpl in E; discriminate E.
Qed.

Lemma detail_phase_status r :
  400 <= status r ->
  detail_phase r = Raises (ClientError (msg_detail_http (status r))).
Proof.
  intros Hst. unfold detail_phase.
  destruct (400 <=? status r) eqn:E; [reflexivity | lia].
Qed.

Lemma detail_phase_no_songs r dd :
  status r < 400 ->
  json_body r = Some (JDict dd) ->
  py_bool (dict_get dd "songs" (JList [])) = false ->
  detail_phase r = Raises (ParseException msg_not_found).
Proof.
  intros Hst Hbody Hsongs. unfold detail_phase, resp_json.
  destruct (400 <=? status r) eqn:E; [lia|].
  rewrite Hbody. simpl. now rewrite Hsongs.
Qed.

(** ** Where exceptions come from *)

Lemma py_get_raises o key default e : py_get o key default = Raises e -> runtime_error e.
Proof. destruct o; simpl; intros E; inversion E; exact I. Qed.

Lemma py_item0_raises o e : py_item0 o = Raises e -> runtime_error e.
Proof.
  destruct o as [| | | |s|l|d]; simpl; try (intros E; inversion E; exact I).
  - destruct s; intros E; inversion E; exact I.
  - destruct l; intros E; inversion E; exact I.
Qed.

Lemma py_iter_raises o e : py_iter o = Raises e -> runtime_error e.
Proof. destruct o; simpl; intros E; inversion E; exact I. Qed.

Lemma py_add_str_raises v s e : py_add_str v s = Raises e -> runtime_error e.
Proof. destruct v; simpl; intros E; inversion E; exact I. Qed.

Lemma py_str_add_raises s v e : py_str_add s v = Raises e -> runtime_error e.
Proof. destruct v; simpl; intros E; inversion E; exact I. Qed.

Lemma py_floordiv_int_raises v n e : py_floordiv_int v n = Raises e -> runtime_error e.
Proof.
  destruct v; simpl; try destruct (n =? 0); intros E; inversion E; exact I.
Qed.

Lemma resp_json_raises r e : resp_json r = Raises e -> runtime_error e.
Proof.
  unfold resp_json. destruct (json_body r); intros E; inversion E; exact I.
Qed.

Lemma omap_raises {A B : Type} (f : A -> outcome B) l e :
  (forall a e', f a = Raises e' -> runtime_error e') ->
  omap f l = Raises e -> runtime_error e.
Proof.
  intros Hf. induction l as [|a l IH]; simpl; [discriminate|].
  destruct (f a) eqn:Ea; simpl.
  - destruct (omap f l); simpl; [discriminate|].
    intros E. injection E as <-. now apply IH.
  - intros E. injection E as <-. eapply Hf, Ea.
Qed.

Lemma omap_py_get_raises key default l e :
  omap (fun ar => py_get ar key default) l = Raises e -> runtime_error e.
Proof. apply omap_raises. intros a e'. apply py_get_raises. Qed.

Lemma str_join_raises sep items e : str_join sep items = Raises e -> runtime_error e.
Proof.
  unfold str_join. intros E.
  destruct (omap _ items) eqn:Eo; simpl in E; [discriminate E|].
  injection E as <-. eapply omap_raises; [|exact Eo].
  intros a e'. destruct a; intros E; inversion E; exact I.
Qed.

#[local] Hint Resolve py_get_raises py_item0_raises py_iter_raises py_add_str_raises
  py_str_add_raises py_floordiv_int_raises resp_json_raises omap_py_get_raises
  str_join_raises : py_raises.

Lemma song_metadata_raises song e : song_metadata song = Raises e -> runtime_error e.
Proof.
  unfold song_metadata. intros E.
  repeat raise_step E; try discriminate E; injection E as <-; eauto with py_raises.
Qed.

(** How the first half can fail (section 7 of the specification, kinds (a)
    and (b)). *)
Lemma detail_phase_raises r e :
  detail_phase r = Raises e ->
  (400 <= status r /\ e = ClientError (msg_detail_http (status r))) \/
  (status r < 400 /\ (e = ParseException msg_not_found \/ runtime_error e)).
Proof.
  unfold detail_phase. intros E.
  destruct (400 <=? status r) eqn:Est; simpl in E.
  - left. split; [lia | congruence].
  - right. split; [lia|].
    do 3 raise_step E; [left; congruence | right].
    raise_step E. eapply song_metadata_raises, E.
Qed.

(** ** The second half *)

Lemma play_phase_status song_id m r :
  400 <= status r ->
  play_phase song_id m r = Raises (ClientError (msg_play_http (status r))).
Proof.
  intros Hst. unfold play_phase.
  destruct (400 <=? status r) eqn:E; [reflexivity | lia].
Qed.

(** With a first entry in hand, what is left is the check of the address and
    the assembly. *)
Lemma play_phase_entry song_id m r d entry rest :
  status r < 400 ->
  json_body r = Some (JDict d) ->
  dict_lookup "data" d = Some (JList (JDict entry :: rest)) ->
  play_phase song_id m r =
  obind (check_audio_url (JDict entry) (dict_get entry "url" JNull))
        (fun _ => assemble song_id m (dict_get entry "url" JNull)).
Proof.
  intros Hst Hbody Hdata. unfold play_phase, resp_json.
  destruct (400 <=? status r) eqn:E; [lia|].
  rewrite Hbody. simpl. unfold dict_get at 1 2. rewrite Hdata. reflexivity.
Qed.

Lemma check_audio_url_restricted entry :
  py_bool (dict_get entry "url" JNull) = false ->
  py_eq_int (dict_get entry "code" (JInt (-1))) 404 = true ->
  check_audio_url (JDict entry) (dict_get entry "url" JNull) =
  Raises (ParseException msg_restricted).
Proof. intros Hurl Hcode. unfold check_audio_url. rewrite Hurl. simpl. now rewrite Hcode. Qed.

Lemma check_audio_url_unavailable entry :
  py_bool (dict_get entry "url" JNull) = false ->
  py_eq_int (dict_get entry "code" (JInt (-1))) 404 = false ->
  check_audio_url (JDict entry) (dict_get entry "url" JNull) =
  Raises (ParseException (msg_unavailable (dict_get entry "code" (JInt (-1))))).
Proof. intros Hurl Hcode. unfold check_audio_url. rewrite Hurl. simpl. now rewrite Hcode. Qed.

Lemma check_audio_url_returns play_info audio_url :
  check_audio_url play_info audio_url = Returns tt -> py_bool audio_url = true.
Proof.
  unfold check_audio_url. destruct (py_bool audio_url); [reflexivity|]. simpl.
  destruct (py_get play_info "code" (JInt (-1))); simpl; [|discriminate].
  destruct (py_eq_int a 404); discriminate.
Qed.

Lemma play_phase_returns song_id m r res :
  play_phase song_id m r = Returns res ->
  status r < 400 /\
  exists d entry rest u,
    json_body r = Some (JDict d) /\
    dict_lookup "data" d = Some (JList (JDict entry :: rest)) /\
    dict_lookup "url" entry = Some u /\ py_bool u = true /\
    assemble song_id m u = Returns res.
Proof.
  unfold play_phase, resp_json. intros E.
  destruct (400 <=? status r) eqn:Est; [discriminate E|]. simpl in E.
  split; [lia|].
  destruct (json_body r) as [[| | | | | |d]|]; try discriminate E.
  simpl in E. unfold dict_get at 1 2 in E.
  destruct (dict_lookup "data" d) as [data|] eqn:Edata; [|discriminate E].
  destruct data as [|b|n|x|s|l|d']; simpl in E; try discriminate E.
  - destruct b; discriminate E.
  - destruct (n =? 0); discriminate E.
  - destruct (float_is_zero x); discriminate E.
  - destruct s; discriminate E.
  - destruct l as [|[| | | | | |entry] rest]; try discriminate E. simpl in E.
    destruct (check_audio_url _ _) as [[]|] eqn:Echeck; [|discriminate E].
    simpl in E. apply check_audio_url_returns in Echeck.
    unfold dict_get in *.
    destruct (dict_lookup "url" entry) as [u|] eqn:Eurl; [|discriminate Echeck].
    exists d, entry, rest, u. auto.
  - destruct d'; discriminate E.
Qed.

Lemma assemble_returns song_id m audio_url res :
  assemble song_id m audio_url = Returns res ->
  exists seconds suffix,
    py_floordiv_int (m_duration_ms m) 1000 = Returns seconds /\
    (if py_bool (m_sub_title m)
     then obind (py_str_add "（" (m_sub_title m)) (fun s => Returns (s ++ "）"))
     else Returns "") = Returns suffix /\
    res =
    {| r_title := py_str (m_title m) ++ suffix;
       r_text := if py_bool (m_album_name m)
                 then Some ("专辑：" ++ py_str (m_album_name m)) else None;
       r_author := if negb (String.eqb (m_author_name m) "")
                   then Some {| author_name := m_author_name m;
                                author_avatar := m_author_avatar m |}
                   else None;
       r_contents := (if py_bool (m_cover_url m) then [ImageContent (m_cover_url m)] else [])
                       ++ [AudioContent audio_url (Some seconds)];
       r_timestamp := None;
       r_url := "https://music.163.com/#/song?id=" ++ song_id |}.
Proof.
  unfold assemble. intros E. do 2 out_step E.
  injection E as <-. eauto.
Qed.

(** How the second half can fail (section 7, kinds (a), (c) and (d), and the
    empty playback data list). *)
Lemma play_phase_raises song_id m r e :
  play_phase song_id m r = Raises e ->
  (400 <= status r /\ e = ClientError (msg_play_http (status r))) \/
  (status r < 400 /\
   (e = ParseException msg_no_play_data \/ e = ParseException msg_restricted \/
    (exists code, e = ParseException (msg_unavailable code)) \/ runtime_error e)).
Proof.
  unfold play_phase, check_audio_url, assemble. intros E.
  destruct (400 <=? status r) eqn:Est; simpl in E.
  - left. split; [lia | congruence].
  - right. split; [lia|].
    repeat raise_step E; try discriminate E; injection E as <-; eauto 7 with py_raises.
Qed.

(** ** Error handling *)

(** C2: for every song-detail response (one that passed the status check)
    whose JSON body has a missing or empty "songs" list, the handler raises
    the not-found condition, and the song-detail request is the only request
    it issued: the playback request is not among them. *)
Theorem empty_song_list_not_found server self song_id resp d :
  server (detail_request self song_id) = Resp resp ->
  status resp < 400 ->
  json_body resp = Some (JDict d) ->
  dict_lookup "songs" d = None \/ dict_lookup "songs" d = Some (JList []) ->
  run server (_parse_song self song_id) =
    ([detail_request self song_id], Raises (ParseException "[NCM] 未找到该歌曲")) /\
  ~ In (play_request self song_id) (fst (run server (_parse_song self song_id))).
Proof.
  intros Hresp Hst Hbody Hsongs.
  assert (E : run server (_parse_song self song_id) =
              ([detail_request self song_id], Raises (ParseException msg_not_found))).
  { rewrite run_parse_song, Hresp.
    rewrite (detail_phase_no_songs resp d Hst Hbody); [reflexivity|].
    unfold dict_get. now destruct Hsongs as [-> | ->]. }
  split; [exact E|].
  rewrite E. simpl. intros [E'|[]].
  now apply detail_request_not_play_request in E'.
Qed.

(** C3: when the playback request was issued and its response (one that
    passed the status check) has a first entry with no audio URL and a code
    equal to 404, the handler raises the restricted condition; its message
    is not the generic one, whatever the code in it. *)
Theorem code_404_restricted server self song_id resp d entry rest :
  In (play_request self song_id) (fst (run server (_parse_song self song_id))) ->
  server (play_request self song_id) = Resp resp ->
  status resp < 400 ->
  json_body resp = Some (JDict d) ->
  dict_lookup "data" d = Some (JList (JDict entry :: rest)) ->
  py_bool (dict_get entry "url" JNull) = false ->
  py_eq_int (dict_get entry "code" (JInt (-1))) 404 = true ->
  snd (run server (_parse_song self song_id)) =
    Raises (ParseException "[NCM] 该歌曲需要VIP或存在版权限制，无法获取播放地址") /\
  forall code,
    snd (run server (_parse_song self song_id)) <>
    Raises (ParseException ("[NCM] 无法获取播放地址 (code=" ++ py_str code ++ ")")).
Proof.
  intros Hin Hresp Hst Hbody Hdata Hurl Hcode.
  destruct (play_request_issued _ _ _ Hin) as (r1 & m & _ & _ & ->).
  rewrite Hresp. simpl.
  rewrite (play_phase_entry song_id m resp d entry rest Hst Hbody Hdata).
  rewrite (check_audio_url_restricted entry Hurl Hcode). simpl.
  split; [reflexivity|].
  intros code. unfold msg_restricted. simpl. discriminate.
Qed.

(** C4: when the playback request was issued and its response (one that
    passed the status check) has a first entry with no audio URL and a code
    other than 404 (-1 when the entry has none), the handler raises the
    generic unavailable condition, and the message holds that code as [str]
    prints it. *)
Theorem other_code_unavailable server self song_id resp d entry rest :
  In (play_request self song_id) (fst (run server (_parse_song self song_id))) ->
  server (play_request self song_id) = Resp resp ->
  status resp < 400 ->
  json_body resp = Some (JDict d) ->
  dict_lookup "data" d = Some (JList (JDict entry :: rest)) ->
  py_bool (dict_get entry "url" JNull) = false ->
  py_eq_int (dict_get entry "code" (JInt (-1))) 404 = false ->
  snd (run server (_parse_song self song_id)) =
    Raises (ParseException
              ("[NCM] 无法获取播放地址 (code="
                 ++ py_str (dict_get entry "code" (JInt (-1))) ++ ")")) /\
  forall n, dict_lookup "code" entry = Some (JInt n) ->
    snd (run server (_parse_song self song_id)) =
    Raises (ParseException ("[NCM] 无法获取播放地址 (code=" ++ str_of_int n ++ ")")).
Proof.
  intros Hin Hresp Hst Hbody Hdata Hurl Hcode.
  destruct (play_request_issued _ _ _ Hin) as (r1 & m & _ & _ & ->).
  rewrite Hresp. simpl.
  rewrite (play_phase_entry song_id m resp d entry rest Hst Hbody Hdata).
  rewrite (check_audio_url_unavailable entry Hurl Hcode). simpl.
  split; [reflexivity|].
  intros n Hn. unfold dict_get. rewrite Hn. reflexivity.
Qed.

(** C5: a song-detail response with status 400 or more makes the handler
    raise the network error whose message carries the status, before any
    other request; so does a playback response with status 400 or more;
    and when both responses have a status below 400 the handler raises no
    network error at all. *)
Theorem http_status_errors server self song_id :
  (forall resp,
     server (detail_request self song_id) = Resp resp -> 400 <= status resp ->
     run server (_parse_song self song_id) =
       ([detail_request self song_id],
        Raises (ClientError ("[NCM] 获取歌曲信息失败 HTTP " ++ str_of_int (status resp))))) /\
  (forall resp,
     In (play_request self song_id) (fst (run server (_parse_song self song_id))) ->
     server (play_request self song_id) = Resp resp -> 400 <= status resp ->
     run server (_parse_song self song_id) =
       ([detail_request self song_id; play_request self song_id],
        Raises (ClientError ("[NCM] 获取播放地址失败 HTTP " ++ str_of_int (status resp))))) /\
  (forall resp1 resp2,
     server (detail_request self song_id) = Resp resp1 -> status resp1 < 400 ->
     server (play_request self song_id) = Resp resp2 -> status resp2 < 400 ->
     forall msg, snd (run server (_parse_song self song_id)) <> Raises (ClientError msg)).
Proof.
  split; [|split].
  - intros resp Hresp Hst.
    rewrite run_parse_song, Hresp, (detail_phase_status resp Hst). reflexivity.
  - intros resp Hin Hresp Hst.
    destruct (play_request_issued _ _ _ Hin) as (r1 & m & _ & _ & ->).
    rewrite Hresp, (play_phase_status song_id m resp Hst). reflexivity.
  - intros resp1 resp2 Hresp1 Hst1 Hresp2 Hst2 msg.
    rewrite run_parse_song, Hresp1.
    destruct (detail_phase resp1) as [m|e] eqn:E1; simpl.
    + rewrite Hresp2. simpl.
      destruct (play_phase song_id m resp2) as [res|e] eqn:E2; [discriminate|].
      intros E. injection E as ->.
      destruct (play_phase_raises _ _ _ _ E2)
        as [[? _] | [_ [He | [He | [[code He] | He]]]]];
        try lia; try discriminate He; exact He.
    + intros E. injection E as ->.
      destruct (detail_phase_raises _ _ E1) as [[? _] | [_ [He | He]]];
        try lia; try discriminate He; exact He.
Qed.

(** ** The result of a call that returns *)

(** A call that returns for a song-detail body whose first song is [sd]:
    the metadata come from [sd], and the result is assembled from them and
    from an audio URL that is true. *)
Lemma parse_song_result server self song_id trace res resp dd sd rest :
  server (detail_request self song_id) = Resp resp ->
  json_body resp = Some (JDict dd) ->
  dict_lookup "songs" dd = Some (JList (JDict sd :: rest)) ->
  run server (_parse_song self song_id) = (trace, Returns res) ->
  exists m audio_url,
    song_metadata (JDict sd) = Returns m /\
    py_bool audio_url = true /\
    assemble song_id m audio_url = Returns res.
Proof.
  intros Hresp Hbody Hsongs Hrun.
  destruct (run_parse_song_returns _ _ _ _ _ Hrun)
    as (r1 & m & r2 & Hr1 & Hd & _ & Hp & _).
  rewrite Hresp in Hr1. injection Hr1 as <-.
  destruct (detail_phase_returns _ _ Hd) as (_ & dd' & sd' & rest' & Hb & Hs & Hm).
  rewrite Hbody in Hb. injection Hb as <-.
  rewrite Hsongs in Hs. injection Hs as <- <-.
  destruct (play_phase_returns _ _ _ _ Hp) as (_ & d & entry & prest & u & _ & _ & _ & Hu & Ha).
  exists m, u. auto.
Qed.

(** ** Duration *)


(** ** Cover *)

Lemma append_not_empty s c t : String.eqb (s ++ String c t) "" = false.
Proof. destruct s; reflexivity. Qed.

(** C7: a non-empty album picUrl [p] makes the content list the cover image
    [p ++ "?param=640y640"] followed by the audio item; with no album, no
    picUrl or an empty picUrl, the content list is the audio item alone. *)
Theorem cover_url_and_contents server self song_id trace res resp dd sd rest :
  server (detail_request self song_id) = Resp resp ->
  json_body resp = Some (JDict dd) ->
  dict_lookup "songs" dd = Some (JList (JDict sd :: rest)) ->
  run server (_parse_song self song_id) = (trace, Returns res) ->
  (forall ad p,
     dict_lookup "album" sd = Some (JDict ad) ->
     dict_lookup "picUrl" ad = Some (JStr p) -> p <> "" ->
     exists u d,
       r_contents res = [ImageContent (JStr (p ++ "?param=640y640")); AudioContent u d]) /\
  (dict_lookup "album" sd = None \/
   (exists ad, dict_lookup "album" sd = Some (JDict ad) /\
               (dict_lookup "picUrl" ad = None \/ dict_lookup "picUrl" ad = Some (JStr ""))) ->
   exists u d, r_contents res = [AudioContent u d]).
Proof.
  intros Hresp Hbody Hsongs Hrun.
  destruct (parse_song_result _ _ _ _ _ _ _ _ _ Hresp Hbody Hsongs Hrun)
    as (m & u & Hm & _ & Ha).
  destruct (song_metadata_returns _ _ Hm)
    as (sd' & ad & ars & names & Hsd & _ & _ & Hal & _ & Hc & _).
  injection Hsd as <-.
  destruct (assemble_returns _ _ _ _ Ha) as (seconds & suffix & _ & _ & ->).
  simpl. unfold dict_get in Hal, Hc. split.
  - intros ad' p Halbum Hpic Hp.
    rewrite Halbum in Hal. injection Hal as <-.
    rewrite Hpic in Hc. simpl in Hc.
    destruct (String.eqb p "") eqn:Ep; [apply String.eqb_eq in Ep; contradiction|].
    simpl in Hc. injection Hc as <-. simpl.
    rewrite append_not_empty. simpl. eauto.
  - intros [Halbum | (ad' & Halbum & Hpic)].
    + rewrite Halbum in Hal. injection Hal as <-.
      simpl in Hc. injection Hc as <-. simpl. eauto.
    + rewrite Halbum in Hal. injection Hal as <-.
      destruct Hpic as [Hpic | Hpic]; rewrite Hpic in Hc; simpl in Hc;
        injection Hc as <-; simpl; eauto.
Qed.

(** ** Title *)

Lemma append_empty_r s : s ++ "" = s.
Proof.
  induction s as [|c s IH]; [reflexivity|].
  change (String c (s ++ "") = String c s). now rewrite IH.
Qed.

(** C8, as the code has it: with name [t] and a non-empty first alias [a]
    the title is [t] followed by [a] in full-width parentheses; with no
    alias key, an empty alias list or an empty first alias, it is [t]. *)
Theorem title_with_alias server self song_id trace res resp dd sd rest t :
  server (detail_request self song_id) = Resp resp ->
  json_body resp = Some (JDict dd) ->
  dict_lookup "songs" dd = Some (JList (JDict sd :: rest)) ->
  dict_lookup "name" sd = Some (JStr t) ->
  run server (_parse_song self song_id) = (trace, Returns res) ->
  (forall a l,
     dict_lookup "alias" sd = Some (JList (JStr a :: l)) -> a <> "" ->
     r_title res = t ++ "（" ++ a ++ "）") /\
  (dict_lookup "alias" sd = None \/ dict_lookup "alias" sd = Some (JList []) \/
   (exists l, dict_lookup "alias" sd = Some (JList (JStr "" :: l))) ->
   r_title res = t).
Proof.
  intros Hresp Hbody Hsongs Hname Hrun.
  destruct (parse_song_result _ _ _ _ _ _ _ _ _ Hresp Hbody Hsongs Hrun)
    as (m & u & Hm & _ & Ha).
  destruct (song_metadata_returns _ _ Hm)
    as (sd' & ad & ars & names & Hsd & Ht & Hsub & _).
  injection Hsd as <-.
  destruct (assemble_returns _ _ _ _ Ha) as (seconds & suffix & _ & Hsuf & ->).
  simpl. rewrite Ht. unfold dict_get in Hsub |- *. rewrite Hname.
  change (py_str (JStr t)) with t. split.
  - intros a l Halias Ha'. rewrite Halias in Hsub. simpl in Hsub.
    injection Hsub as Hsub. rewrite <- Hsub in Hsuf. simpl in Hsuf.
    destruct (String.eqb a "") eqn:Ea; [apply String.eqb_eq in Ea; contradiction|].
    simpl in Hsuf. injection Hsuf as <-. reflexivity.
  - intros Halias.
    assert (Hempty : m_sub_title m = JStr "").
    { destruct Halias as [Halias | [Halias | [l Halias]]];
        rewrite Halias in Hsub; simpl in Hsub; congruence. }
    rewrite Hempty in Hsuf. simpl in Hsuf. injection Hsuf as <-.
    apply append_empty_r.
Qed.

(** ** Author *)

Lemma joined_names sep ars names s :
  omap (fun ar => py_get ar "name" (JStr "")) ars = Returns names ->
  str_join sep names = Returns s ->
  exists strs, Forall2 artist_named ars strs /\ s = join sep strs.
Proof.
  unfold str_join. intros Hnames Hjoin.
  destruct (omap _ names) as [strs|] eqn:Hstrs; [|discriminate Hjoin].
  simpl in Hjoin. injection Hjoin as <-. exists strs. split; [|reflexivity].
  revert names strs Hnames Hstrs.
  induction ars as [|ar ars IH]; simpl; intros names strs Hnames Hstrs.
  - injection Hnames as <-. simpl in Hstrs. injection Hstrs as <-. constructor.
  - destruct ar as [| | | | | |ad]; try discriminate Hnames. simpl in Hnames.
    destruct (omap _ ars) as [names'|] eqn:Hn; [|discriminate Hnames].
    simpl in Hnames. injection Hnames as <-. simpl in Hstrs.
    destruct (dict_get ad "name" (JStr "")) as [| | | |name| |] eqn:Hname;
      try discriminate Hstrs.
    simpl in Hstrs.
    destruct (omap _ names') as [strs'|] eqn:Hs; [|discriminate Hstrs].
    simpl in Hstrs. injection Hstrs as <-.
    constructor; [exists ad; auto | eapply IH; eauto].
Qed.

(** C9, as the code has it: when the handler returns, every artist is an
    object whose name (the empty string when it has none) is a string; the
    author name is these names joined with " / "; the author is [None]
    when that joined string is empty, and otherwise (also when it holds
    separators only) carries it with the first artist's img1v1Url (the
    empty string when the artist has none). *)
Theorem author_from_artists server self song_id trace res resp dd sd rest ars :
  server (detail_request self song_id) = Resp resp ->
  json_body resp = Some (JDict dd) ->
  dict_lookup "songs" dd = Some (JList (JDict sd :: rest)) ->
  dict_get sd "artists" (JList []) = JList ars ->
  run server (_parse_song self song_id) = (trace, Returns res) ->
  exists names,
    Forall2 artist_named ars names /\
    r_author res =
    if String.eqb (join " / " names) "" then None
    else Some {| author_name := join " / " names;
                 author_avatar := match ars with
                                  | JDict first :: _ => dict_get first "img1v1Url" (JStr "")
                                  | _ => JStr ""
                                  end |}.
Proof.
  intros Hresp Hbody Hsongs Hars Hrun.
  destruct (parse_song_result _ _ _ _ _ _ _ _ _ Hresp Hbody Hsongs Hrun)
    as (m & u & Hm & _ & Ha).
  destruct (song_metadata_returns _ _ Hm)
    as (sd' & ad & ars' & names & Hsd & _ & _ & _ & _ & _ & _ & Hit & Hn & Hj & Hav).
  injection Hsd as <-.
  rewrite Hars in Hit, Hav. simpl in Hit. injection Hit as <-.
  destruct (joined_names _ _ _ _ Hn Hj) as (strs & Hall & Hname).
  destruct (assemble_returns _ _ _ _ Ha) as (seconds & suffix & _ & _ & ->).
  exists strs. split; [exact Hall|]. simpl r_author. rewrite Hname.
  destruct (String.eqb (join " / " strs) ""); [reflexivity|]. simpl.
  do 2 f_equal.
  destruct Hall as [|ar name ars strs' (first & -> & _) _]; simpl in Hav; congruence.
Qed.

(** ** Direct links *)

(** C10: the two direct-link handlers issue no request, whatever the server,
    and return the fixed title and text, no author, and a content list that
    is one audio item holding the matched URL as it is. *)
Theorem direct_links_wrap_url server self url :
  run server (_parse_direct_mp3 self url) =
    ([], Returns {| r_title := "网易云音乐"; r_text := Some "直链音频";
                    r_author := None;
                    r_contents := [AudioContent (JStr url) None];
                    r_timestamp := None; r_url := url |}) /\
  run server (_parse_private_outer self url) =
    ([], Returns {| r_title := "网易云音乐（私人直链）"; r_text := Some "直链音频";
                    r_author := None;
                    r_contents := [AudioContent (JStr url) None];
                    r_timestamp := None; r_url := url |}).
Proof. split; reflexivity. Qed.

(** ** Optional metadata *)

Lemma detail_phase_song r dd song rest :
  status r < 400 ->
  json_body r = Some (JDict dd) ->
  dict_lookup "songs" dd = Some (JList (song :: rest)) ->
  detail_phase r = song_metadata song.
Proof.
  intros Hst Hbody Hsongs. unfold detail_phase, resp_json.
  destruct (400 <=? status r) eqn:E; [lia|].
  rewrite Hbody. simpl. unfold dict_get. rewrite Hsongs. reflexivity.
Qed.

Lemma artists_ok_names ars :
  forallb artist_ok ars = true ->
  exists names s,
    omap (fun ar => py_get ar "name" (JStr "")) ars = Returns names /\
    str_join " / " names = Returns s.
Proof.
  unfold str_join.
  induction ars as [|ar ars IH]; simpl.
  { intros _. exists [], "". split; reflexivity. }
  intros Hok. apply andb_true_iff in Hok. destruct Hok as [Har Hars].
  destruct (IH Hars) as (names & s & -> & Hs).
  destruct (omap _ names) as [strs|] eqn:Hstrs; [|discriminate Hs].
  destruct ar as [| | | | | |ad]; try discriminate Har. simpl in Har |- *.
  unfold dict_get.
  destruct (dict_lookup "name" ad) as [[| | | |name| |]|]; try discriminate Har;
    eexists; eexists; (split; [reflexivity|]); simpl; rewrite Hstrs; reflexivity.
Qed.

(** A song whose fields other than [duration] have that shape always yields
    metadata, with a string for the subtitle. *)
Lemma song_fields_ok_metadata sd :
  song_fields_ok sd = true ->
  exists m sub,
    song_metadata (JDict sd) = Returns m /\ m_sub_title m = JStr sub.
Proof.
  unfold song_fields_ok. intros Hok.
  apply andb_true_iff in Hok. destruct Hok as [Hok Hartists].
  apply andb_true_iff in Hok. destruct Hok as [Hok Halb].
  apply andb_true_iff in Hok. destruct Hok as [_ Halias].
  assert (Hsub : exists sub,
    (if py_bool (dict_get sd "alias" JNull)
     then py_item0 (dict_get sd "alias" (JList [JStr ""]))
     else Returns (JStr "")) = Returns (JStr sub)).
  { unfold dict_get.
    destruct (dict_lookup "alias" sd) as [[| | | | |[|[| | | |a| |] l]|]|];
      try discriminate; simpl; eauto. }
  assert (Halbum : exists ad cover,
    dict_get sd "album" (JDict []) = JDict ad /\
    (if py_bool (dict_get ad "picUrl" (JStr ""))
     then py_add_str (dict_get ad "picUrl" (JStr "")) "?param=640y640"
     else Returns (dict_get ad "picUrl" (JStr ""))) = Returns cover).
  { unfold dict_get at 1.
    destruct (dict_lookup "album" sd) as [[| | | | | |ad]|]; try discriminate.
    - exists ad. unfold dict_get.
      apply andb_true_iff in Halb. destruct Halb as [_ Hpic].
      destruct (dict_lookup "picUrl" ad) as [[| | | |p| |]|]; try discriminate Hpic;
        simpl; try destruct (negb _); eauto.
    - exists []. simpl. eauto. }
  assert (Hars : exists ars names s avatar,
    dict_get sd "artists" (JList []) = JList ars /\
    omap (fun ar => py_get ar "name" (JStr "")) ars = Returns names /\
    str_join " / " names = Returns s /\
    (if py_bool (dict_get sd "artists" (JList []))
     then obind (py_item0 (dict_get sd "artists" (JList [])))
                (fun ar0 => py_get ar0 "img1v1Url" (JStr ""))
     else Returns (JStr "")) = Returns avatar).
  { unfold dict_get.
    destruct (dict_lookup "artists" sd) as [[| | | | |ars|]|]; try discriminate.
    - destruct (artists_ok_names ars Hartists) as (names & s & Hn & Hs).
      exists ars, names, s.
      destruct ars as [|[| | | | | |first] ars]; try discriminate; simpl; eauto 6.
    - exists [], [], "". simpl. eauto. }
  destruct Hsub as (sub & Hsub). destruct Halbum as (ad & cover & Hal & Hcover).
  destruct Hars as (ars & names & s & avatar & Har & Hn & Hs & Hav).
  unfold song_metadata. simpl.
  rewrite Hsub, Hal. simpl. rewrite Hcover, Hav, Har. simpl. rewrite Hn. simpl.
  rewrite Hs. simpl.
  eexists. exists sub. split; reflexivity.
Qed.

(** A song of that shape always yields metadata, with an integer duration
    and a string for the subtitle. *)
Lemma song_ok_metadata sd :
  song_ok sd = true ->
  exists m ms sub,
    song_metadata (JDict sd) = Returns m /\
    m_duration_ms m = JInt ms /\ m_sub_title m = JStr sub.
Proof.
  unfold song_ok. intros Hok.
  apply andb_true_iff in Hok. destruct Hok as [Hfields Hduration].
  destruct (song_fields_ok_metadata sd Hfields) as (m & sub & Hm & Hsub).
  destruct (song_metadata_returns _ _ Hm)
    as (sd' & _ & _ & _ & Hsd & _ & _ & _ & _ & _ & Hd & _).
  injection Hsd as <-.
  exists m. unfold dict_get in Hd.
  destruct (dict_lookup "duration" sd) as [[| |ms| | | |]|]; try discriminate Hduration;
    eauto.
Qed.

Lemma check_audio_url_true play_info audio_url :
  py_bool audio_url = true -> check_audio_url play_info audio_url = Returns tt.
Proof. intros E. unfold check_audio_url. now rewrite E. Qed.

Lemma album_field_missing sd ad key default :
  dict_get sd "album" (JDict []) = JDict ad ->
  album_field sd key = None ->
  dict_get ad key default = default.
Proof.
  unfold dict_get, album_field.
  destruct (dict_lookup "album" sd) as [album|].
  - intros ->. now intros ->.
  - intros E _. now injection E as <-.
Qed.

Lemma album_field_present sd ad key default v :
  dict_get sd "album" (JDict []) = JDict ad ->
  album_field sd key = Some v ->
  dict_get ad key default = v.
Proof.
  unfold dict_get, album_field.
  destruct (dict_lookup "album" sd) as [album|]; [|discriminate].
  intros ->. now intros ->.
Qed.

Lemma album_field_absent_or_null sd ad key default :
  dict_get sd "album" (JDict []) = JDict ad ->
  absent_or_null (album_field sd key) ->
  dict_get ad key default = default \/ dict_get ad key default = JNull.
Proof.
  intros Hal [Hmiss | Hnull].
  - left. now apply (album_field_missing sd).
  - right. now apply (album_field_present sd).
Qed.

(** C1, as the code has it: a result is returned only after a song-detail
    response that passed the status check and held a first song, and a
    playback response that passed the status check and whose first entry has
    a true audio URL, the one the result's audio item holds.  And for a song
    of the shape of section 6 in which any of the optional keys is absent
    (or, for the alias, the album name and the cover URL, is [null]), with
    a playback entry that has a non-empty URL, the handler returns a result:
    with no alias the title is the name alone, with no album name there is
    no text, with no cover URL the content list is the audio item alone,
    with no artists there is no author.  An album or a list of artists
    that is present with the value [null] is outside this shape. *)
Theorem result_needs_metadata_and_url server self song_id :
  (forall trace res,
     run server (_parse_song self song_id) = (trace, Returns res) ->
     exists resp1 dd sd rest resp2 pd entry prest u,
       server (detail_request self song_id) = Resp resp1 /\ status resp1 < 400 /\
       json_body resp1 = Some (JDict dd) /\
       dict_lookup "songs" dd = Some (JList (JDict sd :: rest)) /\
       server (play_request self song_id) = Resp resp2 /\ status resp2 < 400 /\
       json_body resp2 = Some (JDict pd) /\
       dict_lookup "data" pd = Some (JList (JDict entry :: prest)) /\
       dict_lookup "url" entry = Some u /\ py_bool u = true /\
       exists d, In (AudioContent u d) (r_contents res)) /\
  (forall resp1 dd sd rest resp2 pd entry prest u,
     server (detail_request self song_id) = Resp resp1 -> status resp1 < 400 ->
     json_body resp1 = Some (JDict dd) ->
     dict_lookup "songs" dd = Some (JList (JDict sd :: rest)) ->
     song_ok sd = true ->
     server (play_request self song_id) = Resp resp2 -> status resp2 < 400 ->
     json_body resp2 = Some (JDict pd) ->
     dict_lookup "data" pd = Some (JList (JDict entry :: prest)) ->
     dict_lookup "url" entry = Some (JStr u) -> u <> "" ->
     exists res,
       run server (_parse_song self song_id) =
         ([detail_request self song_id; play_request self song_id], Returns res) /\
       (absent_or_null (dict_lookup "alias" sd) ->
        r_title res = py_str (dict_get sd "name" (JStr ""))) /\
       (absent_or_null (album_field sd "name") -> r_text res = None) /\
       (absent_or_null (album_field sd "picUrl") ->
        exists d, r_contents res = [AudioContent (JStr u) d]) /\
       (dict_lookup "artists" sd = None -> r_author res = None)).
Proof.
  split.
  - intros trace res Hrun.
    destruct (run_parse_song_returns _ _ _ _ _ Hrun)
      as (r1 & m & r2 & Hr1 & Hd & Hr2 & Hp & _).
    destruct (detail_phase_returns _ _ Hd) as (Hst1 & dd & sd & rest & Hb1 & Hs & _).
    destruct (play_phase_returns _ _ _ _ Hp)
      as (Hst2 & pd & entry & prest & u & Hb2 & Hdata & Hurl & Hu & Ha).
    destruct (assemble_returns _ _ _ _ Ha) as (seconds & suffix & _ & _ & ->).
    exists r1, dd, sd, rest, r2, pd, entry, prest, u.
    repeat (split; [assumption|]).
    exists (Some seconds). simpl. apply in_or_app. right. now left.
  - intros resp1 dd sd rest resp2 pd entry prest u
      Hr1 Hst1 Hb1 Hsongs Hok Hr2 Hst2 Hb2 Hdata Hurl Hu.
    destruct (song_ok_metadata sd Hok) as (m & ms & sub & Hm & Hdur & Hsub).
    assert (Hass : exists res, assemble song_id m (JStr u) = Returns res).
    { unfold assemble. rewrite Hdur, Hsub. simpl.
      destruct (negb (String.eqb sub "")); simpl; eauto. }
    destruct Hass as (res & Hass). exists res. split.
    { rewrite run_parse_song, Hr1.
      rewrite (detail_phase_song resp1 dd (JDict sd) rest Hst1 Hb1 Hsongs), Hm, Hr2.
      rewrite (play_phase_entry song_id m resp2 pd entry prest Hst2 Hb2 Hdata).
      unfold dict_get. rewrite Hurl.
      rewrite check_audio_url_true; [simpl; now rewrite Hass|].
      simpl. now apply negb_true_iff, String.eqb_neq. }
    destruct (song_metadata_returns _ _ Hm)
      as (sd' & ad & ars & names & Hsd & Ht & Hsub' & Hal & Hname & Hc & _ & Hit & Hn & Hj & _).
    injection Hsd as <-.
    destruct (assemble_returns _ _ _ _ Hass) as (seconds & suffix & _ & Hsuf & ->).
    simpl. repeat split.
    + intros Halias. unfold dict_get in Hsub'.
      assert (Hempty : m_sub_title m = JStr "").
      { destruct Halias as [Halias | Halias]; rewrite Halias in Hsub';
          simpl in Hsub'; congruence. }
      rewrite Hempty in Hsuf. simpl in Hsuf.
      injection Hsuf as <-. rewrite Ht. apply append_empty_r.
    + intros Hmiss. rewrite Hname.
      destruct (album_field_absent_or_null sd ad "name" (JStr "") Hal Hmiss) as [-> | ->];
        reflexivity.
    + intros Hmiss.
      destruct (album_field_absent_or_null sd ad "picUrl" (JStr "") Hal Hmiss)
        as [E | E]; rewrite E in Hc; simpl in Hc; injection Hc as <-; simpl; eauto.
    + intros Hmiss. unfold dict_get in Hit. rewrite Hmiss in Hit. simpl in Hit.
      injection Hit as <-. simpl in Hn. injection Hn as <-.
      unfold str_join in Hj. simpl in Hj. injection Hj as <-. reflexivity.
Qed.

(** * Further properties of the handlers and of the constructor *)

(** ** The requests of [_parse_song] *)

(** The handler issues one request or two, in this order. *)
Lemma trace_of_parse_song server self song_id :
  fst (run server (_parse_song self song_id)) = [detail_request self song_id] \/
  fst (run server (_parse_song self song_id)) =
    [detail_request self song_id; play_request self song_id].
Proof.
  rewrite run_parse_song.
  destruct (server (detail_request self song_id)) as [r1|e]; simpl; [|auto].
  destruct (detail_phase r1) as [m|e]; simpl; [|auto].
  destruct (server (play_request self song_id)) as [r2|e]; simpl; auto.
Qed.

(** X1: whatever the server answers, the handler issues the song-detail
    request alone, or the song-detail request and then the playback request,
    each with [self.headers]; it returns a result only after both. *)
Theorem requests_in_order server self song_id :
  (fst (run server (_parse_song self song_id)) = [detail_request self song_id] \/
   fst (run server (_parse_song self song_id)) =
     [detail_request self song_id; play_request self song_id]) /\
  (forall res,
     snd (run server (_parse_song self song_id)) = Returns res ->
     fst (run server (_parse_song self song_id)) =
       [{| req_url := "https://music.163.com/api/song/detail/?id=" ++ song_id
                        ++ "&ids=[" ++ song_id ++ "]";
           req_headers := headers self |};
        {| req_url := "https://music.163.com/api/song/enhance/player/url?ids=["
                        ++ song_id ++ "]&br=320000";
           req_headers := headers self |}]).
Proof.
  split; [apply trace_of_parse_song|].
  rewrite run_parse_song.
  destruct (server (detail_request self song_id)) as [r1|e]; simpl; [|discriminate].
  destruct (detail_phase r1) as [m|e]; simpl; [|discriminate].
  destruct (server (play_request self song_id)) as [r2|e]; simpl; [reflexivity | discriminate].
Qed.

(** ** Falsy lists *)

(** X2: a song-detail object whose "songs" value is false in Python ([null],
    [false], [0], an empty string, list or object) is treated as having no
    song: the not-found condition, after the song-detail request alone. *)
Theorem falsy_songs_not_found server self song_id resp d songs :
  server (detail_request self song_id) = Resp resp ->
  status resp < 400 ->
  json_body resp = Some (JDict d) ->
  dict_lookup "songs" d = Some songs ->
  py_bool songs = false ->
  run server (_parse_song self song_id) =
    ([detail_request self song_id], Raises (ParseException "[NCM] 未找到该歌曲")).
Proof.
  intros Hresp Hst Hbody Hsongs Hfalse.
  rewrite run_parse_song, Hresp.
  rewrite (detail_phase_no_songs resp d Hst Hbody); [reflexivity|].
  unfold dict_get. now rewrite Hsongs.
Qed.

(** X3: when the playback request was issued and its response (status below
    400) is an object whose "data" value is missing or false in Python (an
    empty list, [null], ...), the handler raises the no-playback-data
    condition, after both requests. *)
Theorem empty_play_data server self song_id resp d :
  In (play_request self song_id) (fst (run server (_parse_song self song_id))) ->
  server (play_request self song_id) = Resp resp ->
  status resp < 400 ->
  json_body resp = Some (JDict d) ->
  py_bool (dict_get d "data" (JList [])) = false ->
  run server (_parse_song self song_id) =
    ([detail_request self song_id; play_request self song_id],
     Raises (ParseException "[NCM] 获取播放数据失败")).
Proof.
  intros Hin Hresp Hst Hbody Hdata.
  destruct (play_request_issued _ _ _ Hin) as (r1 & m & _ & _ & ->).
  rewrite Hresp. unfold play_phase, resp_json.
  destruct (400 <=? status resp) eqn:E; [lia|].
  rewrite Hbody. simpl. now rewrite Hdata.
Qed.

(** ** The exceptions of [_parse_song] *)

(** X4: when both requests are answered with responses, an exception of the
    handler is one of: the two network errors, each with a status of 400 or
    more in its message; the four parse exceptions of lines 60, 85, 94 and
    96; or an exception of the interpreter or of the JSON decoder.  No other
    [ClientError] or [ParseException] is ever raised. *)
Theorem raised_exceptions server self song_id resp1 resp2 e :
  server (detail_request self song_id) = Resp resp1 ->
  server (play_request self song_id) = Resp resp2 ->
  snd (run server (_parse_song self song_id)) = Raises e ->
  (400 <= status resp1 /\
   e = ClientError ("[NCM] 获取歌曲信息失败 HTTP " ++ str_of_int (status resp1))) \/
  (400 <= status resp2 /\
   e = ClientError ("[NCM] 获取播放地址失败 HTTP " ++ str_of_int (status resp2))) \/
  e = ParseException "[NCM] 未找到该歌曲" \/
  e = ParseException "[NCM] 获取播放数据失败" \/
  e = ParseException "[NCM] 该歌曲需要VIP或存在版权限制，无法获取播放地址" \/
  (exists code, e = ParseException ("[NCM] 无法获取播放地址 (code=" ++ py_str code ++ ")")) \/
  runtime_error e.
Proof.
  intros Hr1 Hr2. rewrite run_parse_song, Hr1.
  destruct (detail_phase resp1) as [m|e1] eqn:E1; simpl.
  - rewrite Hr2. simpl. intros E2.
    destruct (play_phase_raises _ _ _ _ E2)
      as [[Hst ->] | [_ [-> | [-> | [[code ->] | He]]]]].
    + right. left. split; [exact Hst | reflexivity].
    + do 3 right. left. reflexivity.
    + do 4 right. left. reflexivity.
    + do 5 right. left. exists code. reflexivity.
    + do 6 right. exact He.
  - intros E. injection E as ->.
    destruct (detail_phase_raises _ _ E1) as [[Hst ->] | [_ [-> | He]]].
    + left. split; [exact Hst | reflexivity].
    + do 2 right. left. reflexivity.
    + do 6 right. exact He.
Qed.

(** ** More of the result *)

(** X5: every result of the handler has the canonical song page of the id as
    its URL, whatever URL shape was matched, and no timestamp. *)
Theorem result_url_is_canonical server self song_id trace res :
  run server (_parse_song self song_id) = (trace, Returns res) ->
  r_url res = "https://music.163.com/#/song?id=" ++ song_id /\ r_timestamp res = None.
Proof.
  intros Hrun.
  destruct (run_parse_song_returns _ _ _ _ _ Hrun) as (r1 & m & r2 & _ & _ & _ & Hp & _).
  destruct (play_phase_returns _ _ _ _ Hp) as (_ & d & entry & rest & u & _ & _ & _ & _ & Ha).
  destruct (assemble_returns _ _ _ _ Ha) as (seconds & suffix & _ & _ & ->).
  split; reflexivity.
Qed.

(** X6: the text of the result names the album: "专辑：" followed by the
    album name when that is a non-empty string, and no text when it is the
    empty string. *)
Theorem text_names_album server self song_id trace res resp dd sd rest ad n :
  server (detail_request self song_id) = Resp resp ->
  json_body resp = Some (JDict dd) ->
  dict_lookup "songs" dd = Some (JList (JDict sd :: rest)) ->
  dict_lookup "album" sd = Some (JDict ad) ->
  dict_lookup "name" ad = Some (JStr n) ->
  run server (_parse_song self song_id) = (trace, Returns res) ->
  r_text res = if String.eqb n "" then None else Some ("专辑：" ++ n).
Proof.
  intros Hresp Hbody Hsongs Halbum Hn Hrun.
  destruct (parse_song_result _ _ _ _ _ _ _ _ _ Hresp Hbody Hsongs Hrun)
    as (m & u & Hm & _ & Ha).
  destruct (song_metadata_returns _ _ Hm)
    as (sd' & ad' & ars & names & Hsd & _ & _ & Hal & Hname & _).
  injection Hsd as <-.
  unfold dict_get in Hal. rewrite Halbum in Hal. injection Hal as <-.
  unfold dict_get in Hname. rewrite Hn in Hname.
  destruct (assemble_returns _ _ _ _ Ha) as (seconds & suffix & _ & _ & ->).
  simpl. rewrite Hname. simpl.
  destruct (String.eqb n ""); reflexivity.
Qed.

(** X7: the content list of a result is the audio item, alone or after one
    cover image; the audio item holds the "url" value of the first playback
    entry as it came, and the duration computed at line 102. *)
Theorem contents_end_with_audio server self song_id trace res resp d entry rest :
  server (play_request self song_id) = Resp resp ->
  json_body resp = Some (JDict d) ->
  dict_lookup "data" d = Some (JList (JDict entry :: rest)) ->
  run server (_parse_song self song_id) = (trace, Returns res) ->
  exists u seconds,
    dict_lookup "url" entry = Some u /\
    (r_contents res = [AudioContent u (Some seconds)] \/
     exists cover, r_contents res = [ImageContent cover; AudioContent u (Some seconds)]).
Proof.
  intros Hresp Hbody Hdata Hrun.
  destruct (run_parse_song_returns _ _ _ _ _ Hrun) as (r1 & m & r2 & _ & _ & Hr2 & Hp & _).
  rewrite Hresp in Hr2. injection Hr2 as <-.
  destruct (play_phase_returns _ _ _ _ Hp)
    as (_ & d' & entry' & rest' & u & Hb & Hd & Hu & _ & Ha).
  rewrite Hbody in Hb. injection Hb as <-.
  rewrite Hdata in Hd. injection Hd as <- <-.
  destruct (assemble_returns _ _ _ _ Ha) as (seconds & suffix & _ & _ & ->).
  exists u, seconds. split; [exact Hu|]. simpl.
  destruct (py_bool (m_cover_url m)); simpl; eauto.
Qed.

(** ** Duration: the default and the late failure *)

(** X8: a song with no "duration" key gets the duration 0. *)
Theorem missing_duration_is_zero server self song_id trace res resp dd sd rest :
  server (detail_request self song_id) = Resp resp ->
  json_body resp = Some (JDict dd) ->
  dict_lookup "songs" dd = Some (JList (JDict sd :: rest)) ->
  dict_lookup "duration" sd = None ->
  run server (_parse_song self song_id) = (trace, Returns res) ->
  forall u d, In (AudioContent u d) (r_contents res) -> d = Some (JInt 0).
Proof.
  intros Hresp Hbody Hsongs Hdur Hrun.
  destruct (parse_song_result _ _ _ _ _ _ _ _ _ Hresp Hbody Hsongs Hrun)
    as (m & u & Hm & _ & Ha).
  destruct (song_metadata_returns _ _ Hm)
    as (sd' & ad & ars & names & Hsd & _ & _ & _ & _ & _ & Hd & _).
  injection Hsd as <-.
  unfold dict_get in Hd. rewrite Hdur in Hd.
  destruct (assemble_returns _ _ _ _ Ha) as (seconds & suffix & Hs & _ & ->).
  rewrite Hd in Hs. simpl in Hs. injection Hs as <-.
  simpl r_contents. intros u' d Hin.
  apply in_app_or in Hin. destruct Hin as [Hin | [Hin | []]].
  - destruct (py_bool (m_cover_url m)); [|destruct Hin].
    destruct Hin as [Hin | []]. discriminate Hin.
  - now injection Hin as _ <-.
Qed.

(** X9: for a first song whose other fields have the shape of section 6,
    a duration that is not a number ([null], a string, a list, an object)
    is not rejected when the metadata are read: the playback request is
    issued all the same, and when its first entry has a true url the
    handler raises [TypeError] at line 102, with both requests issued. *)
Theorem bad_duration_fails_late
  server self song_id resp1 dd sd rest v resp2 pd entry prest :
  server (detail_request self song_id) = Resp resp1 ->
  status resp1 < 400 ->
  json_body resp1 = Some (JDict dd) ->
  dict_lookup "songs" dd = Some (JList (JDict sd :: rest)) ->
  song_fields_ok sd = true ->
  dict_lookup "duration" sd = Some v ->
  is_number v = false ->
  server (play_request self song_id) = Resp resp2 ->
  status resp2 < 400 ->
  json_body resp2 = Some (JDict pd) ->
  dict_lookup "data" pd = Some (JList (JDict entry :: prest)) ->
  py_bool (dict_get entry "url" JNull) = true ->
  run server (_parse_song self song_id) =
    ([detail_request self song_id; play_request self song_id], Raises TypeError).
Proof.
  intros Hr1 Hst1 Hb1 Hsongs Hok Hdur Hv Hr2 Hst2 Hb2 Hdata Hurl.
  destruct (song_fields_ok_metadata sd Hok) as (m & sub & Hm & _).
  destruct (song_metadata_returns _ _ Hm)
    as (sd' & ad & ars & names & Hsd & _ & _ & _ & _ & _ & Hdm & _).
  injection Hsd as <-.
  unfold dict_get in Hdm. rewrite Hdur in Hdm.
  rewrite run_parse_song, Hr1.
  rewrite (detail_phase_song resp1 dd (JDict sd) rest Hst1 Hb1 Hsongs), Hm, Hr2.
  rewrite (play_phase_entry song_id m resp2 pd entry prest Hst2 Hb2 Hdata).
  rewrite (check_audio_url_true _ _ Hurl). simpl.
  unfold assemble. rewrite Hdm.
  destruct v; try discriminate Hv; reflexivity.
Qed.

(** ** Bodies and albums that are not objects *)

(** X10: a song-detail body that decodes to anything but an object (an
    empty body decodes to [None]) makes [.get] raise [AttributeError] after
    the first request; so does such a playback body, after the second. *)
Theorem non_object_body_raises server self song_id :
  (forall resp v,
     server (detail_request self song_id) = Resp resp -> status resp < 400 ->
     json_body resp = Some v -> is_dict v = false ->
     run server (_parse_song self song_id) =
       ([detail_request self song_id], Raises AttributeError)) /\
  (forall resp v,
     In (play_request self song_id) (fst (run server (_parse_song self song_id))) ->
     server (play_request self song_id) = Resp resp -> status resp < 400 ->
     json_body resp = Some v -> is_dict v = false ->
     run server (_parse_song self song_id) =
       ([detail_request self song_id; play_request self song_id], Raises AttributeError)).
Proof.
  split.
  - intros resp v Hresp Hst Hbody Hv.
    rewrite run_parse_song, Hresp. unfold detail_phase, resp_json.
    destruct (400 <=? status resp) eqn:E; [lia|].
    rewrite Hbody. destruct v; try discriminate Hv; reflexivity.
  - intros resp v Hin Hresp Hst Hbody Hv.
    destruct (play_request_issued _ _ _ Hin) as (r1 & m & _ & _ & ->).
    rewrite Hresp. unfold play_phase, resp_json.
    destruct (400 <=? status resp) eqn:E; [lia|].
    rewrite Hbody. destruct v; try discriminate Hv; reflexivity.
Qed.

(** X11: the default of [song.get("album", {})] covers a missing key only.
    When the first song (with no alias, or a list for alias) has an "album"
    that is not an object, [null] included, the handler raises
    [AttributeError] and never asks for the playback address. *)
Theorem non_object_album_raises server self song_id resp dd sd rest v :
  server (detail_request self song_id) = Resp resp ->
  status resp < 400 ->
  json_body resp = Some (JDict dd) ->
  dict_lookup "songs" dd = Some (JList (JDict sd :: rest)) ->
  dict_lookup "alias" sd = None \/ (exists l, dict_lookup "alias" sd = Some (JList l)) ->
  dict_lookup "album" sd = Some v ->
  is_dict v = false ->
  run server (_parse_song self song_id) =
    ([detail_request self song_id], Raises AttributeError).
Proof.
  intros Hresp Hst Hbody Hsongs Halias Halbum Hv.
  rewrite run_parse_song, Hresp.
  rewrite (detail_phase_song resp dd (JDict sd) rest Hst Hbody Hsongs).
  assert (E : song_metadata (JDict sd) = Raises AttributeError); [|now rewrite E].
  unfold song_metadata. simpl. unfold dict_get.
  rewrite Halbum.
  destruct Halias as [-> | [l ->]]; simpl.
  - destruct v; try discriminate Hv; reflexivity.
  - destruct l; simpl; destruct v; try discriminate Hv; reflexivity.
Qed.

(** ** The headers set by [__init__] *)

Lemma headers_get_set_same key value h :
  headers_get key (headers_set key value h) = Some value.
Proof.
  induction h as [|[k v] h IH]; simpl.
  - now rewrite String.eqb_refl.
  - destruct (String.eqb k key) eqn:E; simpl; now rewrite E.
Qed.

Lemma headers_get_set_other key key' value h :
  key' <> key ->
  headers_get key' (headers_set key value h) = headers_get key' h.
Proof.
  intros Hne. induction h as [|[k v] h IH]; simpl.
  - destruct (String.eqb_spec key key'); [congruence | reflexivity].
  - destruct (String.eqb_spec k key) as [->|Hk]; simpl.
    + destruct (String.eqb_spec key key'); [congruence | reflexivity].
    + now rewrite IH.
Qed.

Lemma headers_set_keys key value h k :
  In k (map fst (headers_set key value h)) <-> k = key \/ In k (map fst h).
Proof.
  induction h as [|[k0 v] h IH]; simpl.
  - intuition.
  - destruct (String.eqb_spec k0 key) as [->|Hk]; simpl; [intuition|].
    rewrite IH. intuition.
Qed.

Lemma headers_set_NoDup key value h :
  NoDup (map fst h) -> NoDup (map fst (headers_set key value h)).
Proof.
  induction h as [|[k0 v] h IH]; simpl; intros Hnd.
  - constructor; [intros [] | constructor].
  - destruct (String.eqb_spec k0 key) as [->|Hk]; simpl; [exact Hnd|].
    inversion Hnd as [|? ? Hnotin Hnd']; subst.
    constructor; [|now apply IH].
    rewrite headers_set_keys. intros [-> | Hin]; [now apply Hk | now apply Hnotin].
Qed.

Lemma init_referer base_headers cookies_str :
  headers_get "Referer" (headers (__init__ base_headers cookies_str))
    = Some "https://music.163.com".
Proof.
  unfold __init__.
  destruct cookies_str as [s|]; simpl; [destruct (negb (String.eqb s ""))|];
    rewrite ?headers_get_set_other by discriminate;
    apply headers_get_set_same.
Qed.

Lemma init_cookie base_headers s :
  s <> "" ->
  headers_get "cookie" (headers (__init__ base_headers (Some s))) = Some s.
Proof.
  intros Hs. unfold __init__. simpl.
  destruct (String.eqb_spec s ""); [contradiction|]. simpl.
  apply headers_get_set_same.
Qed.

(** X12: after [__init__] the Referer header is the music.163.com origin,
    whatever the base class had put there; the cookie header is the cookie
    string of the jar when that is a non-empty string, and is what the base
    class left (possibly nothing) when the jar has none. *)
Theorem init_sets_referer_and_cookie base_headers cookies_str :
  headers_get "Referer" (headers (__init__ base_headers cookies_str))
    = Some "https://music.163.com" /\
  (forall s, cookies_str = Some s -> s <> "" ->
     headers_get "cookie" (headers (__init__ base_headers cookies_str)) = Some s) /\
  (cookies_str = None \/ cookies_str = Some "" ->
     headers_get "cookie" (headers (__init__ base_headers cookies_str))
       = headers_get "cookie" base_headers).
Proof.
  split; [apply init_referer | split].
  - intros s -> Hs. now apply init_cookie.
  - unfold __init__.
    intros [-> | ->]; simpl; apply headers_get_set_other; discriminate.
Qed.

(** X13: [__init__] touches no other header: a key that is neither
    "Referer" nor "cookie" has the value the base class gave it, or none. *)
Theorem init_keeps_other_headers base_headers cookies_str key :
  key <> "Referer" -> key <> "cookie" ->
  headers_get key (headers (__init__ base_headers cookies_str))
    = headers_get key base_headers.
Proof.
  intros Href Hcookie. unfold __init__.
  destruct cookies_str as [s|]; simpl; [destruct (negb (String.eqb s ""))|];
    rewrite ?headers_get_set_other by assumption; reflexivity.
Qed.

(** X14: [__init__] keeps the headers a dictionary: when the keys of the
    base headers are pairwise distinct, so are the keys it leaves. *)
Theorem init_keeps_keys_distinct base_headers cookies_str :
  NoDup (map fst base_headers) ->
  NoDup (map fst (headers (__init__ base_headers cookies_str))).
Proof.
  intros Hnd. unfold __init__.
  destruct cookies_str as [s|]; simpl; [destruct (negb (String.eqb s ""))|];
    repeat apply headers_set_NoDup; exact Hnd.
Qed.

(** X15: every request [_parse_song] issues for a parser built by
    [__init__] carries the music.163.com Referer, and the cookie of the jar
    when it has one. *)
Theorem song_requests_carry_referer server base_headers cookies_str song_id rq :
  In rq (fst (run server (_parse_song (__init__ base_headers cookies_str) song_id))) ->
  headers_get "Referer" (req_headers rq) = Some "https://music.163.com" /\
  (forall s, cookies_str = Some s -> s <> "" ->
     headers_get "cookie" (req_headers rq) = Some s).
Proof.
  intros Hin.
  assert (Hh : req_headers rq = headers (__init__ base_headers cookies_str)).
  { destruct (trace_of_parse_song server (__init__ base_headers cookies_str) song_id)
      as [E | E]; rewrite E in Hin; simpl in Hin;
      intuition (subst; reflexivity). }
  rewrite Hh. split; [apply init_referer|].
  intros s -> Hs. now apply init_cookie.
Qed.

(** ** One request per song *)

Lemma length_append_str a b : String.length (a ++ b) = (String.length a + String.length b)%nat.
Proof.
  induction a as [|c a IH]; [reflexivity|].
  change (S (String.length (a ++ b)) = S (String.length a + String.length b))%nat.
  now rewrite IH.
Qed.

Lemma append_inj_l p a b : p ++ a = p ++ b -> a = b.
Proof.
  induction p as [|c p IH]; [trivial|].
  change (String c (p ++ a) = String c (p ++ b) -> a = b).
  intros E. injection E as E. now apply IH.
Qed.

Lemma append_inj_same_length a b x y :
  String.length a = String.length b -> a ++ x = b ++ y -> a = b.
Proof.
  revert b. induction a as [|c a IH]; intros [|c' b] Hlen; try discriminate Hlen.
  - reflexivity.
  - change (String c (a ++ x) = String c' (b ++ y) -> String c a = String c' b).
    intros E. injection E as -> E. f_equal. apply IH; [|exact E].
    simpl in Hlen. now injection Hlen.
Qed.

(** X16: the two URLs identify the song: two song ids that give the same
    song-detail URL, or the same playback URL, are the same id. *)
Theorem urls_identify_song song_id song_id' :
  (detail_url song_id = detail_url song_id' -> song_id = song_id') /\
  (play_url song_id = play_url song_id' -> song_id = song_id').
Proof.
  unfold detail_url, play_url. split; intros E; apply append_inj_l in E.
  - apply (append_inj_same_length _ _ _ _) with (2 := E).
    apply (f_equal String.length) in E.
    rewrite !length_append_str in E. simpl in E. lia.
  - apply (append_inj_same_length _ _ _ _) with (2 := E).
    apply (f_equal String.length) in E.
    rewrite !length_append_str in E. simpl in E. lia.
Qed.

End Properties.

(** * Concrete runs *)

Example run_full :
  run server_full (_parse_song self0 "42") =
    ([detail_request self0 "42"; play_request self0 "42"], Returns result_full).
Proof. reflexivity. Qed.

Example run_bare :
  run server_bare (_parse_song self0 "42") =
    ([detail_request self0 "42"; play_request self0 "42"], Returns result_bare).
Proof. reflexivity. Qed.

Lemma result_needs_metadata_and_url_example :
  (exists resp1 dd sd rest resp2 pd entry prest u,
     server_full (detail_request self0 "42") = Resp resp1 /\ status resp1 < 400 /\
     json_body resp1 = Some (JDict dd) /\
     dict_lookup "songs" dd = Some (JList (JDict sd :: rest)) /\
     server_full (play_request self0 "42") = Resp resp2 /\ status resp2 < 400 /\
     json_body resp2 = Some (JDict pd) /\
     dict_lookup "data" pd = Some (JList (JDict entry :: prest)) /\
     dict_lookup "url" entry = Some u /\ py_bool u = true /\
     exists d, In (AudioContent u d) (r_contents result_full)) /\
  (exists res,
     run server_bare (_parse_song self0 "42") =
       ([detail_request self0 "42"; play_request self0 "42"], Returns res) /\
     (absent_or_null (dict_lookup "alias" song_bare) ->
      r_title res = py_str (dict_get song_bare "name" (JStr ""))) /\
     (absent_or_null (album_field song_bare "name") -> r_text res = None) /\
     (absent_or_null (album_field song_bare "picUrl") ->
      exists d, r_contents res = [AudioContent (JStr "http://example/a.mp3") d]) /\
     (dict_lookup "artists" song_bare = None -> r_author res = None)) /\
  (exists res,
     run server_nulls (_parse_song self0 "42") =
       ([detail_request self0 "42"; play_request self0 "42"], Returns res) /\
     (absent_or_null (dict_lookup "alias" song_nulls) ->
      r_title res = py_str (dict_get song_nulls "name" (JStr ""))) /\
     (absent_or_null (album_field song_nulls "name") -> r_text res = None) /\
     (absent_or_null (album_field song_nulls "picUrl") ->
      exists d, r_contents res = [AudioContent (JStr "http://example/a.mp3") d]) /\
     (dict_lookup "artists" song_nulls = None -> r_author res = None)).
Proof.
  split; [|split].
  - exact (proj1 (result_needs_metadata_and_url server_full self0 "42") _ _ run_full).
  - apply (proj2 (result_needs_metadata_and_url server_bare self0 "42")
             (http 200 (songs_body [JDict song_bare])) (songs_body [JDict song_bare])
             song_bare [] (http 200 (data_body entry_ok)) (data_body entry_ok) entry_ok []);
      try reflexivity; simpl; try lia; discriminate.
  - apply (proj2 (result_needs_metadata_and_url server_nulls self0 "42")
             (http 200 (songs_body [JDict song_nulls])) (songs_body [JDict song_nulls])
             song_nulls [] (http 200 (data_body entry_ok)) (data_body entry_ok) entry_ok []);
      try reflexivity; simpl; try lia; discriminate.
Defined.

Lemma empty_song_list_not_found_example :
  let server := two_replies (http 200 (songs_body [])) (http 200 (data_body entry_ok)) in
  run server (_parse_song self0 "42") =
    ([detail_request self0 "42"], Raises (ParseException "[NCM] 未找到该歌曲")) /\
  ~ In (play_request self0 "42") (fst (run server (_parse_song self0 "42"))).
Proof.
  apply (empty_song_list_not_found _ self0 "42" (http 200 (songs_body [])) (songs_body []));
    [reflexivity | simpl; lia | reflexivity | right; reflexivity].
Defined.

Lemma code_404_restricted_example :
  snd (run (server_denied 404) (_parse_song self0 "42")) =
    Raises (ParseException "[NCM] 该歌曲需要VIP或存在版权限制，无法获取播放地址") /\
  forall code : value,
    snd (run (server_denied 404) (_parse_song self0 "42")) <>
    Raises (ParseException ("[NCM] 无法获取播放地址 (code=" ++ py_str code ++ ")")).
Proof.
  apply (code_404_restricted (server_denied 404) self0 "42"
           (http 200 (data_body (entry_denied 404))) (data_body (entry_denied 404))
           (entry_denied 404) []);
    [vm_compute; right; left; reflexivity | reflexivity | simpl; lia | reflexivity..].
Defined.

Lemma other_code_unavailable_example :
  snd (run (server_denied 403) (_parse_song self0 "42")) =
    Raises (ParseException "[NCM] 无法获取播放地址 (code=403)").
Proof.
  refine (proj1 (other_code_unavailable (server_denied 403) self0 "42"
                   (http 200 (data_body (entry_denied 403))) (data_body (entry_denied 403))
                   (entry_denied 403) [] _ _ _ _ _ _ _));
    [vm_compute; right; left; reflexivity | reflexivity | simpl; lia | reflexivity..].
Defined.

Lemma http_status_errors_example :
  run (two_replies (http 500 []) (http 200 (data_body entry_ok))) (_parse_song self0 "42") =
    ([detail_request self0 "42"],
     Raises (ClientError "[NCM] 获取歌曲信息失败 HTTP 500")) /\
  run (two_replies (http 200 (songs_body [JDict song_full])) (http 502 []))
      (_parse_song self0 "42") =
    ([detail_request self0 "42"; play_request self0 "42"],
     Raises (ClientError "[NCM] 获取播放地址失败 HTTP 502")) /\
  forall msg, snd (run server_full (_parse_song self0 "42")) <> Raises (ClientError msg).
Proof.
  split; [|split].
  - refine (proj1 (http_status_errors _ self0 "42") (http 500 []) _ _);
      [reflexivity | simpl; lia].
  - refine (proj1 (proj2 (http_status_errors _ self0 "42")) (http 502 []) _ _ _);
      [vm_compute; right; left; reflexivity | reflexivity | simpl; lia].
  - refine (proj2 (proj2 (http_status_errors server_full self0 "42"))
              (http 200 (songs_body [JDict song_full])) (http 200 (data_body entry_ok))
              _ _ _ _);
      [reflexivity | simpl; lia | reflexivity | simpl; lia].
Defined.


Lemma cover_url_and_contents_example :
  (exists u d,
     r_contents result_full =
     [ImageContent (JStr "http://example/cover.jpg?param=640y640"); AudioContent u d]) /\
  (exists u d, r_contents result_bare = [AudioContent u d]).
Proof.
  split.
  - refine (proj1 (cover_url_and_contents server_full self0 "42" _ result_full
                     (http 200 (songs_body [JDict song_full]))
                     (songs_body [JDict song_full]) song_full []
                     eq_refl eq_refl eq_refl run_full)
                  [("name", JStr "Album"); ("picUrl", JStr "http://example/cover.jpg")]
                  "http://example/cover.jpg" eq_refl eq_refl _).
    discriminate.
  - refine (proj2 (cover_url_and_contents server_bare self0 "42" _ result_bare
                     (http 200 (songs_body [JDict song_bare]))
                     (songs_body [JDict song_bare]) song_bare []
                     eq_refl eq_refl eq_refl run_bare) _).
    left. reflexivity.
Defined.

Lemma title_with_alias_example :
  r_title result_full = "Song（Alt）" /\ r_title result_bare = "Song".
Proof.
  split.
  - refine (proj1 (title_with_alias server_full self0 "42" _ result_full
                     (http 200 (songs_body [JDict song_full]))
                     (songs_body [JDict song_full]) song_full [] "Song"
                     eq_refl eq_refl eq_refl eq_refl run_full) "Alt" [] eq_refl _).
    discriminate.
  - refine (proj2 (title_with_alias server_bare self0 "42" _ result_bare
                     (http 200 (songs_body [JDict song_bare]))
                     (songs_body [JDict song_bare]) song_bare [] "Song"
                     eq_refl eq_refl eq_refl eq_refl run_bare) _).
    left. reflexivity.
Defined.

(** C8 as the specification states it fails for a first alias that is the
    empty string: the title is the name alone, with no parentheses. *)
Lemma empty_alias_has_no_parentheses :
  let server :=
    two_replies (http 200 (songs_body [JDict song_empty_alias]))
                (http 200 (data_body entry_ok)) in
  dict_lookup "name" song_empty_alias = Some (JStr "Song") /\
  dict_lookup "alias" song_empty_alias = Some (JList [JStr ""]) /\
  exists trace res,
    run server (_parse_song self0 "42") = (trace, Returns res) /\
    r_title res = "Song" /\
    r_title res <> "Song" ++ "（" ++ "" ++ "）".
Proof.
  split; [reflexivity|]. split; [reflexivity|].
  eexists. eexists. split; [reflexivity|]. split; [reflexivity | discriminate].
Qed.

Lemma author_from_artists_example :
  exists names,
    Forall2 artist_named artists_full names /\
    r_author result_full =
    if String.eqb (join " / " names) "" then None
    else Some {| author_name := join " / " names;
                 author_avatar := JStr "http://example/a.jpg" |}.
Proof.
  exact (author_from_artists server_full self0 "42" _ result_full
           (http 200 (songs_body [JDict song_full])) (songs_body [JDict song_full])
           song_full [] _ eq_refl eq_refl eq_refl eq_refl run_full).
Defined.

(** C1 as the specification states it fails for an album or a list of
    artists that is [null].  A song whose album is [null] has neither an
    album name nor a cover URL, and a song whose artists are [null] has no
    author; but the default of [song.get("album", {})] and of
    [song.get("artists", [])] stands in for an absent key only: with both
    responses in order and a playback URL at hand, the handler raises at
    line 65 ([None] has no [.get]), resp. at line 73 ([None] cannot be
    iterated), and returns no result. *)
Lemma null_album_is_not_omitted :
  (dict_lookup "album" song_null_album = Some JNull /\
   album_field song_null_album "name" = None /\
   album_field song_null_album "picUrl" = None /\
   run server_null_album (_parse_song self0 "42") =
     ([detail_request self0 "42"], Raises AttributeError)) /\
  (dict_lookup "artists" song_null_artists = Some JNull /\
   run server_null_artists (_parse_song self0 "42") =
     ([detail_request self0 "42"], Raises TypeError)).
Proof. repeat split. Qed.

(** C9 as the specification states it fails for several artists without a
    name.  The test of line 99 is on the joined string: for two artists
    with no name, every name read at line 73 is the empty string and no
    author name was found, yet the joined string is " / ", which is not
    empty, and an author is made. *)
Lemma nameless_artists_get_an_author :
  Forall (fun ar => artist_named ar "") artists_nameless /\
  exists res,
    run server_nameless (_parse_song self0 "42") =
      ([detail_request self0 "42"; play_request self0 "42"], Returns res) /\
    r_author res = Some {| author_name := " / "; author_avatar := JStr "" |}.
Proof.
  split.
  - repeat constructor; exists []; split; reflexivity.
  - eexists. split; reflexivity.
Qed.

(** An alias that is a string, not a list, gives its first character. *)
Example string_alias_first_character :
  exists trace res,
    run (two_replies (http 200 (songs_body [JDict [("name", JStr "Song");
                                                   ("alias", JStr "别名")]]))
                     (http 200 (data_body entry_ok)))
        (_parse_song self0 "42") = (trace, Returns res) /\
    r_title res = "Song（别）".
Proof. eexists. eexists. split; reflexivity. Qed.

(** * Concrete runs for the further properties *)

Lemma falsy_songs_not_found_example :
  run server_null_songs (_parse_song self0 "42") =
    ([detail_request self0 "42"], Raises (ParseException "[NCM] 未找到该歌曲")).
Proof.
  apply (falsy_songs_not_found server_null_songs self0 "42"
           (http 200 [("songs", JNull)]) [("songs", JNull)] JNull);
    [reflexivity | simpl; lia | reflexivity..].
Defined.

Lemma empty_play_data_example :
  run server_no_data (_parse_song self0 "42") =
    ([detail_request self0 "42"; play_request self0 "42"],
     Raises (ParseException "[NCM] 获取播放数据失败")).
Proof.
  apply (empty_play_data server_no_data self0 "42"
           (http 200 [("data", JList [])]) [("data", JList [])]);
    [vm_compute; right; left; reflexivity | reflexivity | simpl; lia | reflexivity..].
Defined.

Lemma raised_exceptions_example :
  let e : exn := ParseException "[NCM] 无法获取播放地址 (code=403)" in
  snd (run (server_denied 403) (_parse_song self0 "42")) = Raises e /\
  ((400 <= 200 /\ e = ClientError ("[NCM] 获取歌曲信息失败 HTTP " ++ str_of_int 200)) \/
   (400 <= 200 /\ e = ClientError ("[NCM] 获取播放地址失败 HTTP " ++ str_of_int 200)) \/
   e = ParseException "[NCM] 未找到该歌曲" \/
   e = ParseException "[NCM] 获取播放数据失败" \/
   e = ParseException "[NCM] 该歌曲需要VIP或存在版权限制，无法获取播放地址" \/
   (exists code : value,
      e = ParseException ("[NCM] 无法获取播放地址 (code=" ++ py_str code ++ ")")) \/
   runtime_error e).
Proof.
  split; [reflexivity|].
  exact (raised_exceptions (server_denied 403) self0 "42"
           (http 200 (songs_body [JDict song_full])) (http 200 (data_body (entry_denied 403)))
           _ eq_refl eq_refl eq_refl).
Defined.

Lemma result_url_is_canonical_example :
  r_url result_full = "https://music.163.com/#/song?id=42" /\ r_timestamp result_full = None.
Proof.
  exact (result_url_is_canonical server_full self0 "42" _ result_full run_full).
Defined.

Lemma text_names_album_example :
  r_text result_full = Some "专辑：Album".
Proof.
  exact (text_names_album server_full self0 "42" _ result_full
           (http 200 (songs_body [JDict song_full])) (songs_body [JDict song_full])
           song_full []
           [("name", JStr "Album"); ("picUrl", JStr "http://example/cover.jpg")] "Album"
           eq_refl eq_refl eq_refl eq_refl eq_refl run_full).
Defined.

Lemma contents_end_with_audio_example :
  exists u seconds,
    dict_lookup "url" entry_ok = Some u /\
    (r_contents result_full = [AudioContent u (Some seconds)] \/
     exists cover, r_contents result_full = [ImageContent cover; AudioContent u (Some seconds)]).
Proof.
  exact (contents_end_with_audio server_full self0 "42" _ result_full
           (http 200 (data_body entry_ok)) (data_body entry_ok) entry_ok []
           eq_refl eq_refl eq_refl run_full).
Defined.

Lemma missing_duration_is_zero_example :
  dict_lookup "duration" song_bare = None /\
  forall u d, In (AudioContent u d) (r_contents result_bare) -> d = Some (JInt 0).
Proof.
  split; [reflexivity|].
  exact (missing_duration_is_zero server_bare self0 "42" _ result_bare
           (http 200 (songs_body [JDict song_bare])) (songs_body [JDict song_bare])
           song_bare [] eq_refl eq_refl eq_refl eq_refl run_bare).
Defined.

Lemma bad_duration_fails_late_example :
  run server_null_duration (_parse_song self0 "42") =
    ([detail_request self0 "42"; play_request self0 "42"], Raises TypeError) /\
  run server_str_duration (_parse_song self0 "42") =
    ([detail_request self0 "42"; play_request self0 "42"], Raises TypeError).
Proof.
  split.
  - apply (bad_duration_fails_late server_null_duration self0 "42"
             (http 200 (songs_body [JDict song_null_duration]))
             (songs_body [JDict song_null_duration]) song_null_duration [] JNull
             (http 200 (data_body entry_ok)) (data_body entry_ok) entry_ok []);
      try reflexivity; simpl; lia.
  - apply (bad_duration_fails_late server_str_duration self0 "42"
             (http 200 (songs_body [JDict song_str_duration]))
             (songs_body [JDict song_str_duration]) song_str_duration []
             (JStr "215000")
             (http 200 (data_body entry_ok)) (data_body entry_ok) entry_ok []);
      try reflexivity; simpl; lia.
Defined.

Lemma non_object_body_raises_example :
  run (two_replies {| status := 200; json_body := Some JNull |} (http 200 (data_body entry_ok)))
      (_parse_song self0 "42") =
    ([detail_request self0 "42"], Raises AttributeError) /\
  run (two_replies (http 200 (songs_body [JDict song_full]))
                   {| status := 200; json_body := Some (JList []) |})
      (_parse_song self0 "42") =
    ([detail_request self0 "42"; play_request self0 "42"], Raises AttributeError).
Proof.
  split.
  - refine (proj1 (non_object_body_raises _ self0 "42")
              {| status := 200; json_body := Some JNull |} JNull _ _ _ _);
      [reflexivity | simpl; lia | reflexivity..].
  - refine (proj2 (non_object_body_raises _ self0 "42")
              {| status := 200; json_body := Some (JList []) |} (JList []) _ _ _ _ _);
      [vm_compute; right; left; reflexivity | reflexivity | simpl; lia | reflexivity..].
Defined.

Lemma non_object_album_raises_example :
  run server_null_album (_parse_song self0 "42") =
    ([detail_request self0 "42"], Raises AttributeError).
Proof.
  apply (non_object_album_raises server_null_album self0 "42"
           (http 200 (songs_body [JDict song_null_album]))
           (songs_body [JDict song_null_album]) song_null_album [] JNull);
    [reflexivity | simpl; lia | reflexivity | reflexivity | left; reflexivity
    | reflexivity | reflexivity].
Defined.

Lemma init_keeps_other_headers_example :
  headers_get "User-Agent" (headers (__init__ base_headers0 cookies0)) = Some "Mozilla/5.0".
Proof.
  apply (init_keeps_other_headers base_headers0 cookies0 "User-Agent"); discriminate.
Defined.

Lemma init_keeps_keys_distinct_example :
  map fst (headers (__init__ base_headers0 cookies0)) = ["User-Agent"; "Referer"; "cookie"] /\
  NoDup (map fst (headers (__init__ base_headers0 cookies0))).
Proof.
  split; [reflexivity|].
  apply (init_keeps_keys_distinct base_headers0 cookies0).
  repeat constructor; simpl; intuition discriminate.
Defined.

Lemma song_requests_carry_referer_example :
  let rq := play_request (__init__ base_headers0 cookies0) "42" in
  headers_get "Referer" (req_headers rq) = Some "https://music.163.com" /\
  (forall s, cookies0 = Some s -> s <> "" -> headers_get "cookie" (req_headers rq) = Some s).
Proof.
  apply (song_requests_carry_referer (H:=plain_prims) server_full base_headers0 cookies0 "42").
  vm_compute. right. left. reflexivity.
Defined.
